(** * The retrieval engine of the Bangladesh legal assistant

  A shallow embedding of [rag_system.py] (class [LegalRAGSystem]), of the
  filters and the text cleaning of [data_processor.py], of the sidebar of
  [components/ui_components.py] and of the filter that [app.py] makes of
  it, with the properties of the specification stated over it.

  Conventions of the embedding.
  - A Python [str] is a [string]; one [ascii] stands for one code point
    below 256 (the Latin-1 block, which contains every literal of the
    engine).  Text outside that block is not covered; the Bengali range in
    the pattern of [clean_text] matches no character of the block.
  - A Python exception is a value of [exn]; a call that may raise returns
    a [result].  A method that assigns to [self] or writes files returns
    the state it leaves behind also when it raises.
  - The embedding model, FAISS and the generation model are not part of
    the repository: they are the fields of the class [Backend]. *)

From stdpp Require Import gmap strings list sorting pretty.
From Stdlib Require Import ZArith Lia.

Local Open Scope Z_scope.

Abbreviation ascii := Ascii.ascii.

(** ** Exceptions and results *)

Inductive exn_class :=
  | ValueError | IndexError | TypeError | AttributeError
  | AssertionError | RuntimeError.

(** [exn_str e] is what [str(e)] returns. *)
Record exn := Exn { exn_class_of : exn_class; exn_str : string }.

Inductive result (A : Type) :=
  | Ok (a : A)
  | Raise (e : exn).
Arguments Ok {A} a.
Arguments Raise {A} e.

#[global] Instance result_ret : MRet result := λ A a, Ok a.
#[global] Instance result_bind : MBind result := λ A B f r,
  match r with
  | Ok a => f a
  | Raise e => Raise e
  end.

Definition is_Ok {A} (r : result A) : Prop := ∃ a, r = Ok a.

(** ** Strings *)

Module PyStr.

Definition code (c : ascii) : N := Ascii.N_of_ascii c.

Definition chars (s : string) : list ascii := String.list_ascii_of_string s.

(** [c.isdecimal()]: the characters [int()] reads as digits. *)
Definition is_decimal_char (c : ascii) : bool :=
  ((48 <=? code c) && (code c <=? 57))%N.

(** [c.isdigit()]: the decimal digits and the superscripts two, three
    and one (U+00B2, U+00B3, U+00B9). *)
Definition is_digit_char (c : ascii) : bool :=
  is_decimal_char c
  || (code c =? 178)%N || (code c =? 179)%N || (code c =? 185)%N.

(** [s.isdigit()]: at least one character, and all of them digits. *)
Definition isdigit (s : string) : bool :=
  match chars s with
  | [] => false
  | cs => forallb is_digit_char cs
  end.

Definition digit_value (c : ascii) : Z := Z.of_N (code c) - 48.

Definition decimal_value (cs : list ascii) : Z :=
  foldl (λ acc c, 10 * acc + digit_value c) 0 cs.

(** The characters [str.strip()] removes, which are also the blanks that
    [int()] allows around a number. *)
Definition is_space_char (c : ascii) : bool :=
  let n := code c in
  ((9 <=? n) && (n <=? 13) || (28 <=? n) && (n <=? 32)
   || (n =? 133) || (n =? 160))%N.

Fixpoint lstrip_chars (cs : list ascii) : list ascii :=
  match cs with
  | c :: cs' => if is_space_char c then lstrip_chars cs' else cs
  | [] => []
  end.

Definition strip_chars (cs : list ascii) : list ascii :=
  reverse (lstrip_chars (reverse (lstrip_chars cs))).

Definition strip (s : string) : string :=
  String.string_of_list_ascii (strip_chars (chars s)).

(** The digits of a literal: at least one, with single underscores allowed
    between two of them. *)
Fixpoint digits_of (cs : list ascii) : option (list ascii) :=
  match cs with
  | [] => None
  | c :: rest =>
      if is_decimal_char c then
        match rest with
        | [] => Some [c]
        | u :: rest' =>
            if (code u =? 95)%N then (c ::.) <$> digits_of rest'
            else (c ::.) <$> digits_of rest
        end
      else None
  end.

(** An optional sign in front: [(negative, rest)]. *)
Definition split_sign (cs : list ascii) : bool * list ascii :=
  match cs with
  | c :: rest =>
      if (code c =? 43)%N then (false, rest)
      else if (code c =? 45)%N then (true, rest)
      else (false, cs)
  | [] => (false, [])
  end.

(** [int(s)]: blanks around, a sign, decimal digits.  A superscript digit
    is a digit for [isdigit] but not for [int].  The text of the exception
    quotes [s] as [repr] does for a string without quotes, backslashes and
    control characters; the interpreter's optional cap on the number of
    digits is left out. *)
Definition int (s : string) : result Z :=
  let '(negative, body) := split_sign (strip_chars (chars s)) in
  match digits_of body with
  | Some ds => Ok (if negative : bool then - decimal_value ds
                   else decimal_value ds)
  | None =>
      Raise (Exn ValueError
               ("invalid literal for int() with base 10: '" +:+ s +:+ "'"))
  end.

(** [c.lower()]: A-Z, and the capital letters of the Latin-1 block
    (U+00C0..U+00DE without the multiplication sign U+00D7). *)
Definition lower_char (c : ascii) : ascii :=
  let n := code c in
  if ((65 <=? n) && (n <=? 90)
      || (192 <=? n) && (n <=? 222) && negb (n =? 215))%N
  then Ascii.ascii_of_N (n + 32) else c.

Definition lower (s : string) : string :=
  String.string_of_list_ascii (map lower_char (chars s)).

(** [needle in hay] *)
Fixpoint contains (needle hay : string) : bool :=
  String.prefix needle hay
  || match hay with
     | EmptyString => false
     | String _ hay' => contains needle hay'
     end.

(** [s[:n]] for [n >= 0] *)
Definition slice_to (n : nat) (s : string) : string :=
  String.string_of_list_ascii (take n (chars s)).

(** [sep.join(parts)] *)
Fixpoint join (sep : string) (parts : list string) : string :=
  match parts with
  | [] => ""
  | [p] => p
  | p :: ps => p +:+ sep +:+ join sep ps
  end.

Definition dquote : string := String (Ascii.ascii_of_nat 34) EmptyString.

(** [s.split(sep)] for a separator of one character *)
Fixpoint split_chars (sep : ascii) (cs : list ascii) : list (list ascii) :=
  match cs with
  | [] => [[]]
  | c :: cs' =>
      if Ascii.eqb c sep then [] :: split_chars sep cs'
      else match split_chars sep cs' with
           | part :: parts => (c :: part) :: parts
           | [] => [[c]]
           end
  end.

Definition split (sep : ascii) (s : string) : list string :=
  String.string_of_list_ascii <$> split_chars sep (chars s).

Definition comma : ascii := Ascii.ascii_of_nat 44.

End PyStr.

(** ** Values *)

(** What a metadata field can hold: the document processor stores strings,
  booleans and integers, and a missing cell may come through as [None]. *)
Inductive scalar :=
  | SNone
  | SBool (b : bool)
  | SInt (z : Z)
  | SStr (s : string).

(** What a filter can hold under a key: a scalar, a list or a tuple.  The
  program tells them apart with [isinstance]. *)
Inductive fvalue :=
  | FScalar (v : scalar)
  | FList (l : list scalar)
  | FTuple (l : list scalar).

(** A metadata record is a [dict] that the program only reads with [get]. *)
Abbreviation metadata := (gmap string scalar).

(** A filter is a [dict] that the program walks with [items()], in insertion
  order; [None] is the default argument. *)
Abbreviation filter_items := (list (string * fvalue)).

Module Py.

Definition type_name (v : scalar) : string :=
  match v with
  | SNone => "NoneType"
  | SBool _ => "bool"
  | SInt _ => "int"
  | SStr _ => "str"
  end.

(** Truth value of an object in a condition. *)
Definition truthy (v : scalar) : bool :=
  match v with
  | SNone => false
  | SBool b => b
  | SInt z => negb (z =? 0)
  | SStr s => negb (String.eqb s "")
  end.

(** [str(v)], which is also what an f-string field prints. *)
Definition str (v : scalar) : string :=
  match v with
  | SNone => "None"
  | SBool true => "True"
  | SBool false => "False"
  | SInt z => pretty z
  | SStr s => s
  end.

Definition no_attribute (v : scalar) (name : string) : exn :=
  Exn AttributeError
    ("'" +:+ type_name v +:+ "' object has no attribute '" +:+ name +:+ "'").

(** [v.isdigit()] *)
Definition isdigit (v : scalar) : result bool :=
  match v with
  | SStr s => Ok (PyStr.isdigit s)
  | _ => Raise (no_attribute v "isdigit")
  end.

(** [v.lower()] *)
Definition lower (v : scalar) : result string :=
  match v with
  | SStr s => Ok (PyStr.lower s)
  | _ => Raise (no_attribute v "lower")
  end.

(** [int(v)] for a [v] on which [isdigit()] was called before. *)
Definition int (v : scalar) : result Z :=
  match v with
  | SStr s => PyStr.int s
  | SInt z => Ok z
  | SBool b => Ok (if b then 1 else 0)
  | SNone => Raise (Exn TypeError "int() argument must be a string or a number")
  end.

(** The number an object counts as in a comparison with an [int]:
    [bool] is a subclass of [int]. *)
Definition as_int (v : scalar) : option Z :=
  match v with
  | SInt z => Some z
  | SBool b => Some (if b then 1 else 0)
  | _ => None
  end.

Definition not_ordered (a b : string) : exn :=
  Exn TypeError
    ("'<=' not supported between instances of '" +:+ a +:+ "' and '"
     +:+ b +:+ "'").

(** [v <= n] and [n <= v] for an integer [n] *)
Definition le_int_r (v : scalar) (n : Z) : result bool :=
  match as_int v with
  | Some z => Ok (z <=? n)
  | None => Raise (not_ordered (type_name v) "int")
  end.

Definition le_int_l (n : Z) (v : scalar) : result bool :=
  match as_int v with
  | Some z => Ok (n <=? z)
  | None => Raise (not_ordered "int" (type_name v))
  end.

(** [v == b] for a [bool] [b]: [True == 1] and [False == 0] hold. *)
Definition eq_bool (v : scalar) (b : bool) : bool :=
  match as_int v with
  | Some z => z =? (if b then 1 else 0)
  | None => false
  end.

(** [v == s] for a [str] [s] *)
Definition eq_str (v : scalar) (s : string) : bool :=
  match v with
  | SStr s' => String.eqb s' s
  | _ => false
  end.

(** [t[i]] on a tuple, for a literal index [i >= 0] *)
Definition tuple_item (t : list scalar) (i : nat) : result scalar :=
  match t !! i with
  | Some v => Ok v
  | None => Raise (Exn IndexError "tuple index out of range")
  end.

(** [l[i]] on a list: a negative index counts from the end. *)
Definition getitem {A} (l : list A) (i : Z) : result A :=
  let n := Z.of_nat (length l) in
  let j := if i <? 0 then i + n else i in
  if (0 <=? j) && (j <? n) then
    match l !! Z.to_nat j with
    | Some a => Ok a
    | None => Raise (Exn IndexError "list index out of range")
    end
  else Raise (Exn IndexError "list index out of range").

(** [d.get(key, dflt)] *)
Definition get (d : metadata) (key : string) (dflt : scalar) : scalar :=
  default dflt (d !! key).

End Py.

(** ** The capabilities the engine consumes *)

(** The embedding model ([SentenceTransformer.encode]), the FAISS routines
  and the generation model are opaque to the program.  A vector, a score
  and their order are whatever the libraries provide. *)
Class Backend := {
  Vec : Type;
  Score : Type;
  (** [a <= b] on scores *)
  score_le : Score → Score → bool;
  (** the length of one embedding vector *)
  dim : Vec → nat;
  (** [embedding_model.encode(texts)]: one row per text, or an exception *)
  encode : list string → result (list Vec);
  (** what [faiss.normalize_L2] makes of one row *)
  normalize : Vec → Vec;
  (** [index.search(rows, k)], seen through [zip(scores[0], indices[0])]:
      the stored vectors, the query rows and [k] give the candidates of the
      first query, best first; a slot without a match has the index -1. *)
  index_search : list Vec → list Vec → Z → result (list (Score * Z));
  (** [model.generate_content(prompt).text] *)
  generate_content : string → result string;
}.

(** ** Data model *)

(** A chunk as the document processor hands it over. *)
Record chunk := Chunk {
  chunk_content : string;
  chunk_type_of : string;
  chunk_id_of : string;
  chunk_metadata : metadata;
}.

Section Engine.

Context `{Backend}.

(** [faiss.IndexFlatIP]: the dimension and the stored rows. *)
Record IndexFlatIP := MkIndex {
  index_d : nat;
  index_rows : list Vec;
}.

Definition ntotal (ix : IndexFlatIP) : nat := length (index_rows ix).

(** [faiss.normalize_L2(rows)] rescales every row in place. *)
Definition normalize_L2 (rows : list Vec) : list Vec := map normalize rows.

(** [index.add(rows)] *)
Definition index_add (ix : IndexFlatIP) (rows : list Vec) : IndexFlatIP :=
  MkIndex (index_d ix) (index_rows ix ++ rows).

Record SearchResult := MkSearchResult {
  content : string;
  result_metadata : metadata;
  score : Score;
  chunk_id : scalar;
  chunk_type : scalar;
}.

(** The attributes of a [LegalRAGSystem] that the engine reads and
    writes. *)
Record LegalRAGSystem := MkRAG {
  index : option IndexFlatIP;
  documents : list string;
  document_metadata : list metadata;
}.

(** The three files under [vector_store_path]. *)
Record vector_store := MkStore {
  index_faiss : option IndexFlatIP;
  documents_pkl : option (list string);
  metadata_pkl : option (list metadata);
}.

(** The attributes after [__init__]. *)
Definition init : LegalRAGSystem := MkRAG None [] [].

Definition empty_store : vector_store := MkStore None None None.

(** ** [_apply_filters] *)

(** [any(kw.lower() in content_lower for kw in value)] *)
Fixpoint any_keyword (content_lower : string) (value : list scalar)
  : result bool :=
  match value with
  | [] => Ok false
  | kw :: value' =>
      kw_lower ← Py.lower kw;
      if PyStr.contains kw_lower content_lower then Ok true
      else any_keyword content_lower value'
  end.

(** [isinstance(value, tuple)], [bool], [str] and [list], each giving
    what the branch then reads. *)
Definition as_tuple (value : fvalue) : option (list scalar) :=
  match value with FTuple t => Some t | _ => None end.

Definition as_bool (value : fvalue) : option bool :=
  match value with FScalar (SBool b) => Some b | _ => None end.

Definition as_str (value : fvalue) : option string :=
  match value with FScalar (SStr s) => Some s | _ => None end.

Definition as_list (value : fvalue) : option (list scalar) :=
  match value with FList l => Some l | _ => None end.

(** [value[0] <= year <= value[1]]: the second comparison, and with it
    [value[1]], is only evaluated when the first one holds. *)
Definition in_range (value : list scalar) (year : Z) : result bool :=
  lo ← Py.tuple_item value 0;
  above ← Py.le_int_r lo year;
  if above : bool then hi ← Py.tuple_item value 1; Py.le_int_l year hi
  else Ok false.

(** The body of the loop for one [(key, value)]: [Ok false] is
    [return False], [Ok true] goes on with the next item. *)
Definition apply_filter (metadata : metadata) (key : string) (value : fvalue)
  : result bool :=
  match String.eqb key "year_range", as_tuple value with
  | true, Some value =>
      let year_str := Py.get metadata "act_year" (SStr "") in
      digits ← (if Py.truthy year_str then Py.isdigit year_str
                else Ok false);
      if digits : bool then
        year ← Py.int year_str;
        inside ← in_range value year;
        if inside : bool then Ok true else Ok false
      else Ok true
  | _, _ =>
  match String.eqb key "is_repealed", as_bool value with
  | true, Some value =>
      if Py.eq_bool (Py.get metadata "is_repealed" (SBool false)) value
      then Ok true else Ok false
  | _, _ =>
  match String.eqb key "language", as_str value with
  | true, Some value =>
      if Py.eq_str (Py.get metadata "language_detected" (SStr "")) value
      then Ok true else Ok false
  | _, _ =>
  match String.eqb key "keywords", as_list value with
  | true, Some value =>
      content_lower ← Py.lower (Py.get metadata "act_title" (SStr ""));
      found ← any_keyword content_lower value;
      if found : bool then Ok true else Ok false
  | _, _ => Ok true
  end end end end.

Fixpoint _apply_filters (metadata : metadata) (filters : filter_items)
  : result bool :=
  match filters with
  | [] => Ok true
  | (key, value) :: filters' =>
      pass ← apply_filter metadata key value;
      if pass : bool then _apply_filters metadata filters' else Ok false
  end.

(** ** [search] *)

(** [if filters:] holds for a non-empty [dict]. *)
Definition filters_given (filters : option filter_items) : bool :=
  match filters with
  | Some (_ :: _) => true
  | _ => false
  end.

(** One round of the loop up to [results.append]: [None] is [continue]. *)
Definition candidate (self : LegalRAGSystem) (filters : option filter_items)
    (c : Score * Z) : result (option SearchResult) :=
  let '(score, idx) := c in
  if idx =? -1 then Ok None
  else
    metadata ← Py.getitem (document_metadata self) idx;
    pass ← (if filters_given filters
            then _apply_filters metadata (default [] filters)
            else Ok true);
    if pass : bool then
      content ← Py.getitem (documents self) idx;
      Ok (Some (MkSearchResult content metadata score
                  (Py.get metadata "chunk_id" (SStr ("chunk_" +:+ pretty idx)))
                  (Py.get metadata "chunk_type" (SStr "unknown"))))
    else Ok None.

Fixpoint search_loop (self : LegalRAGSystem) (filters : option filter_items)
    (top_k : Z) (candidates : list (Score * Z)) (results : list SearchResult)
  : result (list SearchResult) :=
  match candidates with
  | [] => Ok results
  | c :: candidates' =>
      r ← candidate self filters c;
      match r with
      | None => search_loop self filters top_k candidates' results
      | Some result =>
          let results := results ++ [result] in
          if Z.of_nat (length results) >=? top_k then Ok results
          else search_loop self filters top_k candidates' results
      end
  end.

(** The candidates [index.search] hands to the loop. *)
Definition neighbours (ix : IndexFlatIP) (query : string) (top_k : Z)
  : result (list (Score * Z)) :=
  query_embedding ← encode [query];
  index_search (index_rows ix) (normalize_L2 query_embedding) (top_k * 2).

Definition search (self : LegalRAGSystem) (query : string) (top_k : Z)
    (filters : option filter_items) : result (list SearchResult) :=
  match index self with
  | None => Raise (Exn ValueError "Vector store not built or loaded")
  | Some ix =>
      candidates ← neighbours ix query top_k;
      search_loop self filters top_k candidates []
  end.



(** ** [_build_context] *)

(** The block of one retrieved document, [i] counting from 1. *)
Definition context_part (i : Z) (doc : SearchResult) : string :=
  let metadata := result_metadata doc in
  "
Document " +:+ pretty i +:+ ":
Title: " +:+ Py.str (Py.get metadata "act_title" (SStr "N/A")) +:+ "
Year: " +:+ Py.str (Py.get metadata "act_year" (SStr "N/A")) +:+ "
Section: " +:+ Py.str (Py.get metadata "section_title" (SStr "Overview")) +:+ "
Status: " +:+ (if Py.truthy (Py.get metadata "is_repealed" (SBool false))
               then "Repealed" else "Active") +:+ "
Content: " +:+ PyStr.slice_to 500 (content doc) +:+ "...
            ".

Definition _build_context (documents : list SearchResult) : string :=
  match documents with
  | [] => "No relevant legal documents found."
  | _ =>
      let context_parts :=
        imap (λ i doc, PyStr.strip (context_part (Z.of_nat i + 1) doc))
             documents in
      PyStr.join "

" context_parts
  end.

(** ** [_get_prompt_template] *)

(** One turn of a conversation, as the caller keeps it. *)
Record turn := MkTurn {
  role : string;
  turn_content : string;
  turn_sources : option (list SearchResult);
}.

Definition base_context (query context : string) : string :=
  "
You are a Bangladesh Legal Assistant AI, specialized in helping with legal questions based on the Bangladesh legal database.

Available Legal Context:
" +:+ context +:+ "

Current Query: " +:+ query +:+ "
        ".

Definition lawyer_instructions : string :=
  "

LAWYER MODE: You are acting as a legal professional providing expert legal advice.

Instructions:
1. Provide comprehensive legal analysis
2. Cite specific acts, sections, and years
3. Explain legal implications and consequences
4. Suggest legal strategies or approaches
5. Mention relevant precedents if applicable
6. Use formal legal language
7. Always caveat that this is general guidance and recommend consulting a practicing lawyer for specific cases

Response format: Provide detailed legal analysis with citations.
".

Definition argument_instructions : string :=
  "

ARGUMENT MODE: Help build legal arguments and counterarguments.

Instructions:
1. Identify the main legal issues
2. Present arguments for different sides
3. Cite supporting legal provisions
4. Identify potential weaknesses in arguments
5. Suggest evidence or precedents that might be relevant
6. Present both plaintiff and defendant perspectives where applicable

Response format: Structure as " +:+ PyStr.dquote +:+ "Arguments For:" +:+ PyStr.dquote +:+ " and " +:+ PyStr.dquote +:+ "Arguments Against:" +:+ PyStr.dquote +:+ " with legal citations.
".

Definition research_instructions : string :=
  "

RESEARCH MODE: Provide comprehensive legal research assistance.

Instructions:
1. Identify all relevant laws and regulations
2. Provide historical context and amendments
3. Compare with similar provisions in other acts
4. Explain the legislative intent and purpose
5. List related acts and cross-references
6. Provide implementation guidelines if available

Response format: Comprehensive research summary with extensive citations.
".

Definition simple_instructions : string :=
  "

SIMPLE MODE: Explain legal concepts in easy-to-understand language.

Instructions:
1. Use simple, non-technical language
2. Explain legal jargon and concepts
3. Provide practical examples
4. Focus on what it means for ordinary citizens
5. Break down complex procedures into steps
6. Avoid excessive legal citations

Response format: Clear, simple explanation that a non-lawyer can understand.
".

Definition general_instructions : string :=
  "

GENERAL MODE: Provide balanced legal information and guidance.

Instructions:
1. Answer the question directly and clearly
2. Provide relevant legal context
3. Cite applicable laws with act names and years
4. Explain practical implications
5. Maintain professional but accessible tone
6. Suggest next steps if appropriate

Response format: Clear, informative response with appropriate legal citations.
".

Definition _get_prompt_template (mode query context : string)
    (history : option (list turn)) : string :=
  let base_context := base_context query context in
  if String.eqb mode "lawyer" then base_context +:+ lawyer_instructions
  else if String.eqb mode "argument" then base_context +:+ argument_instructions
  else if String.eqb mode "research" then base_context +:+ research_instructions
  else if String.eqb mode "simple" then base_context +:+ simple_instructions
  else base_context +:+ general_instructions.

(** ** [generate_response] and [get_chat_response] *)

Definition generate_response (query : string)
    (context_documents : list SearchResult) (mode : string)
    (conversation_history : option (list turn)) : string :=
  let context := _build_context context_documents in
  let prompt := _get_prompt_template mode query context conversation_history in
  match generate_content prompt with
  | Ok text =>
      if negb (String.eqb text "") then text
      else "I apologize, but I couldn't generate a response. Please try rephrasing your question."
  | Raise e =>
      "I encountered an error while processing your request: " +:+ exn_str e
  end.

Definition get_chat_response (self : LegalRAGSystem) (query mode : string)
    (filters : option filter_items)
    (conversation_history : option (list turn)) (top_k : Z)
  : result (string * list SearchResult) :=
  search_results ← search self query top_k filters;
  let response :=
    generate_response query search_results mode conversation_history in
  Ok (response, search_results).

(** ** Building, saving and loading the vector store *)

Definition create_embeddings (texts : list string) : result (list Vec) :=
  encode texts.

(** [embeddings.shape[1]]: an empty result has the shape [(0,)], which has
    no second entry. *)
Definition shape_1 (embeddings : list Vec) : result nat :=
  match embeddings with
  | [] => Raise (Exn IndexError "tuple index out of range")
  | row :: _ => Ok (dim row)
  end.

(** [save_vector_store]: the index first, then the two lists.  What FAISS
    does when it is asked to write [None] is outside the model: the call is
    taken to raise and to leave the files as they are.  No property below
    depends on this case. *)
Definition save_vector_store (self : LegalRAGSystem) (store : vector_store)
  : result () * vector_store :=
  match index self with
  | None => (Raise (Exn RuntimeError ""), store)
  | Some ix =>
      let store := MkStore (Some ix) (documents_pkl store) (metadata_pkl store) in
      let store := MkStore (index_faiss store) (Some (documents self)) (metadata_pkl store) in
      let store := MkStore (index_faiss store) (documents_pkl store) (Some (document_metadata self)) in
      (Ok (), store)
  end.

(** [build_vector_store]: the result, the attributes and the files it
    leaves. *)
Definition build_vector_store (self : LegalRAGSystem) (store : vector_store)
    (docs : list chunk) : result () * LegalRAGSystem * vector_store :=
  let texts := map chunk_content docs in
  let self := MkRAG (index self) texts (document_metadata self) in
  let self := MkRAG (index self) (documents self) (map chunk_metadata docs) in
  match create_embeddings texts with
  | Raise e => (Raise e, self, store)
  | Ok embeddings =>
      match shape_1 embeddings with
      | Raise e => (Raise e, self, store)
      | Ok dimension =>
          let embeddings := normalize_L2 embeddings in
          let ix := index_add (MkIndex dimension []) embeddings in
          let self := MkRAG (Some ix) (documents self) (document_metadata self) in
          let '(r, store) := save_vector_store self store in
          (r, self, store)
      end
  end.

(** [load_vector_store]: a missing file ends the call with [False], after
    the assignments made so far. *)
Definition load_vector_store (self : LegalRAGSystem) (store : vector_store)
  : bool * LegalRAGSystem :=
  match index_faiss store with
  | None => (false, self)
  | Some ix =>
      let self := MkRAG (Some ix) (documents self) (document_metadata self) in
      match documents_pkl store with
      | None => (false, self)
      | Some docs =>
          let self := MkRAG (index self) docs (document_metadata self) in
          match metadata_pkl store with
          | None => (false, self)
          | Some mds => (true, MkRAG (index self) (documents self) mds)
          end
      end
  end.

End Engine.

Arguments SearchResult {_}.
Arguments IndexFlatIP {_}.
Arguments LegalRAGSystem {_}.
Arguments vector_store {_}.
Arguments turn {_}.

(** ** The year filter of the document processor *)

Module DataProcessor.

(** [filter_by_year_range] of [data_processor.py], over
    [self.processed_documents]. *)
Fixpoint filter_by_year_range (processed_documents : list chunk)
    (start_year end_year : Z) : result (list chunk) :=
  match processed_documents with
  | [] => Ok []
  | doc :: rest =>
      let year_str := Py.get (chunk_metadata doc) "act_year" (SStr "") in
      digits ← (if Py.truthy year_str then Py.isdigit year_str else Ok false);
      keep ← (if digits : bool then
                year ← Py.int year_str;
                Ok ((start_year <=? year) && (year <=? end_year))
              else Ok false);
      filtered ← filter_by_year_range rest start_year end_year;
      Ok (if keep : bool then doc :: filtered else filtered)
  end.

(** ** The keyword filter and the cleaning of text *)

(** [[kw.lower() for kw in keywords]] *)
Fixpoint lower_all (keywords : list scalar) : result (list string) :=
  match keywords with
  | [] => Ok []
  | kw :: keywords' =>
      kw_lower ← Py.lower kw;
      rest ← lower_all keywords';
      Ok (kw_lower :: rest)
  end.

(** [any(kw in content_lower or kw in title_lower for kw in keywords_lower)] *)
Definition any_in (content_lower title_lower : string)
    (keywords_lower : list string) : bool :=
  existsb (λ kw, PyStr.contains kw content_lower
                 || PyStr.contains kw title_lower) keywords_lower.

(** The loop of [filter_by_keywords]. *)
Fixpoint keep_by_keywords (processed_documents : list chunk)
    (keywords_lower : list string) : result (list chunk) :=
  match processed_documents with
  | [] => Ok []
  | doc :: rest =>
      let content_lower := PyStr.lower (chunk_content doc) in
      title_lower ← Py.lower (Py.get (chunk_metadata doc) "act_title" (SStr ""));
      filtered ← keep_by_keywords rest keywords_lower;
      Ok (if any_in content_lower title_lower keywords_lower
          then doc :: filtered else filtered)
  end.

(** [filter_by_keywords] of [data_processor.py], over
    [self.processed_documents]. *)
Definition filter_by_keywords (processed_documents : list chunk)
    (keywords : list scalar) : result (list chunk) :=
  keywords_lower ← lower_all keywords;
  keep_by_keywords processed_documents keywords_lower.

(** The word characters of a regular expression ([\w]): letters, digits
    and other numeric characters, and the underscore. *)
Definition is_word_char (c : ascii) : bool :=
  let n := PyStr.code c in
  ((48 <=? n) && (n <=? 57) || (65 <=? n) && (n <=? 90) || (n =? 95)
   || (97 <=? n) && (n <=? 122)
   || (n =? 170) || (n =? 178) || (n =? 179) || (n =? 181) || (n =? 185)
   || (n =? 186) || (188 <=? n) && (n <=? 190)
   || (192 <=? n) && (n <=? 214) || (216 <=? n) && (n <=? 246)
   || (248 <=? n) && (n <=? 255))%N.

(** The punctuation that [clean_text] keeps: [.,;:!?()-] *)
Definition is_kept_punctuation (c : ascii) : bool :=
  let n := PyStr.code c in
  ((n =? 46) || (n =? 44) || (n =? 59) || (n =? 58) || (n =? 33)
   || (n =? 63) || (n =? 40) || (n =? 41) || (n =? 45))%N.

Definition space : ascii := Ascii.ascii_of_nat 32.

(** [re.sub(r'\s+', ' ', text)]: every run of blanks becomes one space;
    [in_run] tells that the character before was a blank. *)
Fixpoint collapse_blanks (in_run : bool) (cs : list ascii) : list ascii :=
  match cs with
  | [] => []
  | c :: cs' =>
      if PyStr.is_space_char c then
        if in_run then collapse_blanks true cs'
        else space :: collapse_blanks true cs'
      else c :: collapse_blanks false cs'
  end.

(** [re.sub(r'[^\w\s\u0980-\u09FF.,;:!?()-]', ' ', text)]: every other
    character becomes a space of its own. *)
Definition blank_out (cs : list ascii) : list ascii :=
  map (λ c, if is_word_char c || PyStr.is_space_char c
               || is_kept_punctuation c
            then c else space) cs.

(** [clean_text]: [pd.isna] holds for [None]. *)
Definition clean_text (text : scalar) : string :=
  match text with
  | SNone => ""
  | _ =>
      if Py.eq_str text "" then ""
      else
        String.string_of_list_ascii
          (PyStr.strip_chars
             (blank_out (collapse_blanks false (PyStr.chars (Py.str text)))))
  end.

End DataProcessor.

(** ** The sidebar, and the filter the application makes of it *)

Module Sidebar.

(** What the widgets of the sidebar return. *)
Record widgets := Widgets {
  mode : string;
  start_year : Z;
  end_year : Z;
  status_filter : string;
  language_filter : string;
  keywords_input : string;
  top_k : Z
}.

(** [[kw.strip() for kw in keywords_input.split(',') if kw.strip()]] *)
Definition keywords_of (keywords_input : string) : list string :=
  PyStr.strip
    <$> List.filter (λ kw, negb (String.eqb (PyStr.strip kw) ""))
          (PyStr.split PyStr.comma keywords_input).

(** [render_sidebar_filters] of [components/ui_components.py]: the [dict]
    it returns, in the order in which the keys are set. *)
Definition render_sidebar_filters (w : widgets) : filter_items :=
  [("mode", FScalar (SStr (mode w)))]
  ++ (if start_year w <=? end_year w
      then [("year_range", FTuple [SInt (start_year w); SInt (end_year w)])]
      else [])
  ++ (if String.eqb (status_filter w) "Active Only"
      then [("is_repealed", FScalar (SBool false))]
      else if String.eqb (status_filter w) "Repealed Only"
      then [("is_repealed", FScalar (SBool true))]
      else [])
  ++ (if negb (String.eqb (language_filter w) "Any")
      then [("language", FScalar (SStr (PyStr.lower (language_filter w))))]
      else [])
  ++ (if negb (String.eqb (keywords_input w) "")
      then [("keywords", FList (SStr <$> keywords_of (keywords_input w)))]
      else [])
  ++ [("top_k", FScalar (SInt (top_k w)))].

End Sidebar.

Module App.

(** [filters[key]], and [key in filters] as [is_Some] of it *)
Fixpoint dict_item (key : string) (filters : filter_items) : option fvalue :=
  match filters with
  | [] => None
  | (k, v) :: filters' =>
      if String.eqb k key then Some v else dict_item key filters'
  end.

(** [if key in filters: rag_filters[key] = filters[key]] *)
Definition copy (key : string) (filters : filter_items) : filter_items :=
  match dict_item key filters with
  | Some v => [(key, v)]
  | None => []
  end.

(** The filter that [main] of [app.py] prepares for the engine. *)
Definition rag_filters (filters : filter_items) : filter_items :=
  copy "year_range" filters ++ copy "is_repealed" filters
  ++ copy "language" filters ++ copy "keywords" filters.

End App.

(** ** A small backend to run the engine on *)

Module Toy.

(** Two coordinates per text: its length, and the number of its letters
    [c] (either case). *)
Definition embed_text (t : string) : list Z :=
  [Z.of_nat (String.length t);
   Z.of_nat (length (filter (λ a, PyStr.code (PyStr.lower_char a) = 99%N)
                            (PyStr.chars t)))].

(** An encoder that refuses an empty text. *)
Definition encode_texts (texts : list string) : result (list (list Z)) :=
  if existsb (λ t, String.eqb t "") texts
  then Raise (Exn RuntimeError "cannot embed an empty text")
  else Ok (map embed_text texts).

Fixpoint dot (u v : list Z) : Z :=
  match u, v with
  | a :: u', b :: v' => a * b + dot u' v'
  | _, _ => 0
  end.

Fixpoint insert_desc (c : Z * Z) (cs : list (Z * Z)) : list (Z * Z) :=
  match cs with
  | [] => [c]
  | c' :: cs' => if c.1 <=? c'.1 then c' :: insert_desc c cs' else c :: cs
  end.

Definition sort_desc (cs : list (Z * Z)) : list (Z * Z) :=
  foldr insert_desc [] cs.

(** Exact search by inner product: the [k] best rows, best first, then
    slots without a match. *)
Definition exact_search (rows queries : list (list Z)) (k : Z)
  : result (list (Z * Z)) :=
  if k <=? 0 then Raise (Exn AssertionError "")
  else
    match queries with
    | [] => Raise (Exn AssertionError "")
    | q :: _ =>
        let scored := imap (λ i row, (dot q row, Z.of_nat i)) rows in
        let best := take (Z.to_nat k) (sort_desc scored) in
        Ok (best ++ replicate (Z.to_nat k - length best) (-1000000, -1))
    end.

Definition backend (generate : string → result string) : Backend := {|
  Vec := list Z;
  Score := Z;
  score_le := Z.leb;
  dim := length;
  encode := encode_texts;
  normalize := id;
  index_search := exact_search;
  generate_content := generate;
|}.

(** A generation model that is down, and one that answers. *)
Definition down (prompt : string) : result string :=
  Raise (Exn RuntimeError "429 quota exceeded").

Definition up (prompt : string) : result string := Ok "See the Contract Act.".

(** The three chunks of the scenario of the specification. *)
Definition act (title year : string) (repealed : bool) : metadata :=
  <["act_title" := SStr title]>
    (<["act_year" := SStr year]> (<["is_repealed" := SBool repealed]> ∅)).

Definition corpus : list chunk :=
  [ Chunk "Contract Act" "overview" "1_overview" (act "Contract Act" "1872" false);
    Chunk "Penal Code" "overview" "2_overview" (act "Penal Code" "1860" false);
    Chunk "Old Act" "overview" "3_overview" (act "Old Act" "1900" true) ].

(** The engine after [build_vector_store(corpus)] on an empty directory. *)
Definition built (generate : string → result string)
  : @LegalRAGSystem (backend generate) :=
  (@build_vector_store (backend generate) init empty_store corpus).1.2.

Definition saved (generate : string → result string)
  : @vector_store (backend generate) :=
  (@build_vector_store (backend generate) init empty_store corpus).2.

(** The index that [built] holds. *)
Definition built_index (generate : string → result string)
  : @IndexFlatIP (backend generate) :=
  @MkIndex (backend generate) 2%nat [[12; 3]; [10; 1]; [7; 1]].

(** What the index hands over for the query [contract] and [top_k = 2]:
    the three rows, best first, and one slot without a match. *)
Definition candidates : list (Z * Z) :=
  [(102, 0); (82, 1); (58, 2); (-1000000, -1)].

(** Filters. *)
Definition active_only : option filter_items :=
  Some [("is_repealed", FScalar (SBool false))].

Definition repealed_only : option filter_items :=
  Some [("is_repealed", FScalar (SBool true))].

(** [{'year_range': (lo, hi)}] and [{'year_range': [lo, hi]}] *)
Definition year_tuple (lo hi : Z) : filter_items :=
  [("year_range", FTuple [SInt lo; SInt hi])].

Definition year_list (lo hi : Z) : filter_items :=
  [("year_range", FList [SInt lo; SInt hi])].

(** A corpus whose second chunk the encoder refuses. *)
Definition bad_corpus : list chunk :=
  [ Chunk "Contract Act" "overview" "1_overview" (act "Contract Act" "1872" false);
    Chunk "" "overview" "2_overview" (act "Penal Code" "1860" false) ].

(** The result that [search] makes of a chunk of [corpus] found at the
    position [idx] with the score [s]: in [corpus] the content of a chunk
    is its title. *)
Definition hit (generate : string → result string) (title year : string)
    (repealed : bool) (idx s : Z) : @SearchResult (backend generate) :=
  @MkSearchResult (backend generate) title (act title year repealed) s
    (SStr ("chunk_" +:+ pretty idx)) (SStr "unknown").

Definition contract_hit : @SearchResult (backend up) :=
  hit up "Contract Act" "1872" false 0 102.

Definition penal_hit : @SearchResult (backend up) :=
  hit up "Penal Code" "1860" false 1 82.

Definition old_hit : @SearchResult (backend up) :=
  hit up "Old Act" "1900" true 2 58.

(** The chunks of the scenario by name, a section of the Penal Code, and
    an ordinance without a year. *)
Definition contract_chunk : chunk :=
  Chunk "Contract Act" "overview" "1_overview"
    (act "Contract Act" "1872" false).

Definition penal_chunk : chunk :=
  Chunk "Penal Code" "overview" "2_overview"
    (act "Penal Code" "1860" false).

Definition old_chunk : chunk :=
  Chunk "Old Act" "overview" "3_overview" (act "Old Act" "1900" true).

Definition theft_chunk : chunk :=
  Chunk "Whoever commits theft shall be punished" "section" "2_section_1"
    (act "Penal Code" "1860" false).

Definition undated_chunk : chunk :=
  Chunk "Undated Ordinance" "overview" "4_overview"
    (act "Undated Ordinance" "N/A" false).

Definition processed : list chunk :=
  [contract_chunk; penal_chunk; old_chunk; theft_chunk; undated_chunk].

(** The sidebar with a year range and a keyword field, the rest at its
    defaults. *)
Definition sidebar (start_year end_year : Z) (keywords_input : string)
  : Sidebar.widgets :=
  Sidebar.Widgets "general" start_year end_year "All" "Any" keywords_input 5.

(** What a build of [bad_corpus] leaves of the built system: the index of
    the three chunks beside the two contents and records of [bad_corpus]. *)
Definition broken : @LegalRAGSystem (backend up) :=
  @MkRAG (backend up) (Some (built_index up))
    ["Contract Act"; ""] (map chunk_metadata bad_corpus).

End Toy.

(** ** Notions the properties are stated with *)

Section Notions.

Context `{Backend}.

(** The results of the candidates that get through one round of the loop,
    in the order of the candidates. *)
Definition passed (self : LegalRAGSystem) (filters : option filter_items)
    (candidates : list (Score * Z)) : list SearchResult :=
  omap (λ c, match candidate self filters c with
             | Ok r => r
             | Raise _ => None
             end) candidates.

(** No round of the loop raises on these candidates. *)
Definition all_rounds_return (self : LegalRAGSystem)
    (filters : option filter_items) (candidates : list (Score * Z)) : Prop :=
  Forall (λ c, is_Ok (candidate self filters c)) candidates.

(** Among the candidates that are matches, none has a lower score than a
    later one. *)
Fixpoint best_first (candidates : list (Score * Z)) : bool :=
  match candidates with
  | [] => true
  | c :: candidates' =>
      forallb (λ c', (c.2 =? -1) || (c'.2 =? -1) || score_le c'.1 c.1)
              candidates'
      && best_first candidates'
  end.

(** [result[i].score >= result[i+1].score] for every valid [i] *)
Definition descending (results : list SearchResult) : Prop :=
  ∀ (i : nat) r1 r2,
    results !! i = Some r1 → results !! S i = Some r2 →
    score_le (score r2) (score r1) = true.

(** Every candidate is a slot without a match or a position below [n]. *)
Definition valid_ids (n : nat) (candidates : list (Score * Z)) : bool :=
  forallb (λ c, (c.2 =? -1) || (0 <=? c.2) && (c.2 <? Z.of_nat n)) candidates.

(** The index, the contents and the metadata have the same length. *)
Definition aligned (self : LegalRAGSystem) : Prop :=
  ∃ ix, index self = Some ix
        ∧ ntotal ix = length (documents self)
        ∧ length (documents self) = length (document_metadata self).

(** The same for the three files, when all of them are there. *)
Definition store_aligned (store : vector_store) : Prop :=
  ∀ ix docs mds,
    index_faiss store = Some ix → documents_pkl store = Some docs →
    metadata_pkl store = Some mds →
    ntotal ix = length docs ∧ length docs = length mds.

(** The calls that change the attributes or the files, and a new process
    on the same directory.  A call that raises leaves what it had assigned
    and written before. *)
Inductive call :=
  | CallBuild (docs : list chunk)
  | CallSave
  | CallLoad
  | Restart.

Definition step (w : LegalRAGSystem * vector_store) (c : call)
  : LegalRAGSystem * vector_store :=
  match c with
  | CallBuild docs =>
      let '(_, self, store) := build_vector_store w.1 w.2 docs in (self, store)
  | CallSave => (w.1, (save_vector_store w.1 w.2).2)
  | CallLoad => ((load_vector_store w.1 w.2).2, w.2)
  | Restart => (init, w.2)
  end.

(** A history of calls, from a fresh system on an empty directory. *)
Definition run (calls : list call) : LegalRAGSystem * vector_store :=
  foldl step (init, empty_store) calls.

(** The encoder gives rows, and so the build returns, for every build of
    the history. *)
Definition every_build_returns (calls : list call) : Prop :=
  Forall (λ c, match c with
               | CallBuild docs =>
                   ∃ row rows, encode (map chunk_content docs) = Ok (row :: rows)
               | _ => True
               end) calls.

(** The encoder gives one row per text. *)
Definition one_row_per_text : Prop :=
  ∀ texts rows, encode texts = Ok rows → length rows = length texts.

End Notions.

(** The year of a record parses to an integer between [lo] and [hi]. *)
Definition year_within (lo hi : Z) (m : metadata) : Prop :=
  ∃ s year, m !! "act_year" = Some (SStr s) ∧ PyStr.int s = Ok year
            ∧ lo ≤ year ≤ hi.

(** A record as the document processor writes it: the year and the title,
    when present, are strings, and a year made of digits is made of
    decimal digits. *)
Definition well_typed_metadata (m : metadata) : bool :=
  match m !! "act_year" with
  | None => true
  | Some (SStr s) =>
      negb (PyStr.isdigit s) || forallb PyStr.is_decimal_char (PyStr.chars s)
  | Some _ => false
  end
  && match m !! "act_title" with
     | None | Some (SStr _) => true
     | Some _ => false
     end.

Definition is_str (v : scalar) : bool :=
  match v with SStr _ => true | _ => false end.

(** A filter item as the data model types it: the bounds of a year range
    are two integers, the keywords are strings. *)
Definition well_typed_item (item : string * fvalue) : bool :=
  match item.2 with
  | FTuple bounds =>
      negb (String.eqb item.1 "year_range")
      || match bounds with
         | SInt _ :: SInt _ :: _ => true
         | _ => false
         end
  | FList keywords =>
      negb (String.eqb item.1 "keywords") || forallb is_str keywords
  | FScalar _ => true
  end.

Definition well_typed_filters (filters : option filter_items) : bool :=
  forallb well_typed_item (default [] filters).

(** ** Notions for the further properties *)

(** The items that one of the four branches of [_apply_filters] reads: the
    key and the type of the value both have to fit. *)
Definition recognised (item : string * fvalue) : bool :=
  String.eqb item.1 "year_range" && bool_decide (is_Some (as_tuple item.2))
  || String.eqb item.1 "is_repealed" && bool_decide (is_Some (as_bool item.2))
  || String.eqb item.1 "language" && bool_decide (is_Some (as_str item.2))
  || String.eqb item.1 "keywords" && bool_decide (is_Some (as_list item.2)).

(** [kw.lower() in title.lower()] *)
Definition keyword_in_title (title kw : string) : bool :=
  PyStr.contains (PyStr.lower kw) (PyStr.lower title).

(** The candidates that are matches. *)
Definition matches {Score : Type} (candidates : list (Score * Z))
  : list (Score * Z) :=
  filter (λ c, c.2 ≠ -1) candidates.

(** Stripped text neither begins nor ends with a blank. *)
Definition trimmed (cs : list ascii) : Prop :=
  (∀ c cs', cs = c :: cs' → PyStr.is_space_char c = false)
  ∧ (∀ c cs', cs = cs' ++ [c] → PyStr.is_space_char c = false).

(** The block of one document as the model gets to read it. *)
Definition context_block `{Backend} (i : Z) (doc : SearchResult) : string :=
  let metadata := result_metadata doc in
  "Document " +:+ pretty i +:+ ":
Title: " +:+ Py.str (Py.get metadata "act_title" (SStr "N/A")) +:+ "
Year: " +:+ Py.str (Py.get metadata "act_year" (SStr "N/A")) +:+ "
Section: " +:+ Py.str (Py.get metadata "section_title" (SStr "Overview")) +:+ "
Status: " +:+ (if Py.truthy (Py.get metadata "is_repealed" (SBool false))
               then "Repealed" else "Active") +:+ "
Content: " +:+ PyStr.slice_to 500 (content doc) +:+ "...".

(** The instructions of a mode. *)
Definition instructions_of (mode : string) : string :=
  if String.eqb mode "lawyer" then lawyer_instructions
  else if String.eqb mode "argument" then argument_instructions
  else if String.eqb mode "research" then research_instructions
  else if String.eqb mode "simple" then simple_instructions
  else general_instructions.

(** Whether [filter_by_year_range] keeps a chunk. *)
Definition year_kept (lo hi : Z) (doc : chunk) : Prop :=
  ∃ s year, chunk_metadata doc !! "act_year" = Some (SStr s)
            ∧ PyStr.isdigit s = true ∧ PyStr.int s = Ok year
            ∧ lo ≤ year ≤ hi.

(** Whether [filter_by_keywords] keeps a chunk. *)
Definition keyword_kept (keywords : list scalar) (doc : chunk) : Prop :=
  ∃ kw title,
    SStr kw ∈ keywords
    ∧ Py.get (chunk_metadata doc) "act_title" (SStr "") = SStr title
    ∧ (PyStr.contains (PyStr.lower kw) (PyStr.lower (chunk_content doc))
       || PyStr.contains (PyStr.lower kw) (PyStr.lower title)) = true.

(** The characters a cleaned text is made of: word characters, the
    punctuation that is kept, and the plain space. *)
Definition is_clean_char (c : ascii) : bool :=
  DataProcessor.is_word_char c || DataProcessor.is_kept_punctuation c
  || (PyStr.code c =? 32)%N.

(** * Properties *)

(** ** Results *)

Lemma bind_Ok {A B} (r : result A) (f : A → result B) (b : B) :
  r ≫= f = Ok b → ∃ a, r = Ok a ∧ f a = Ok b.
Proof. destruct r as [a|e]; simpl; [eauto | discriminate]. Qed.

Lemma is_Ok_Ok {A} (a : A) : is_Ok (Ok a).
Proof. by exists a. Qed.

Ltac inv_bind H :=
  let a := fresh "a" in
  let Ha := fresh "Ha" in
  apply bind_Ok in H as (a & Ha & H).

(** ** Strings *)

Lemma decimal_char_plain (c : ascii) :
  PyStr.is_decimal_char c = true →
  PyStr.is_space_char c = false
  ∧ (PyStr.code c =? 43)%N = false ∧ (PyStr.code c =? 45)%N = false
  ∧ (PyStr.code c =? 95)%N = false.
Proof.
  destruct c as [[] [] [] [] [] [] [] []]; vm_compute; intros Hc;
    (discriminate Hc || done).
Qed.

Lemma lstrip_decimal (cs : list ascii) :
  forallb PyStr.is_decimal_char cs = true → PyStr.lstrip_chars cs = cs.
Proof.
  destruct cs as [|c cs]; [done|]. simpl. intros Hcs.
  apply andb_prop in Hcs as [Hc _].
  by destruct (decimal_char_plain c Hc) as [-> _].
Qed.

Lemma strip_chars_decimal (cs : list ascii) :
  forallb PyStr.is_decimal_char cs = true → PyStr.strip_chars cs = cs.
Proof.
  intros Hcs. unfold PyStr.strip_chars.
  rewrite (lstrip_decimal cs Hcs), lstrip_decimal.
  - apply reverse_involutive.
  - rewrite forallb_forall in *. intros c Hc. apply Hcs.
    by apply list_elem_of_In, elem_of_reverse, list_elem_of_In.
Qed.

Lemma digits_of_decimal (cs : list ascii) :
  cs ≠ [] → forallb PyStr.is_decimal_char cs = true →
  PyStr.digits_of cs = Some cs.
Proof.
  induction cs as [|c cs IH]; intros Hne Hcs; [done|].
  simpl in Hcs. apply andb_prop in Hcs as [Hc Hrest].
  simpl. rewrite Hc. destruct cs as [|u cs]; [done|].
  pose proof Hrest as Hu. simpl in Hu. apply andb_prop in Hu as [Hu _].
  destruct (decimal_char_plain u Hu) as (_ & _ & _ & ->).
  by rewrite IH.
Qed.

(** On a string of decimal digits [int] returns their value. *)
Lemma int_decimal (s : string) :
  PyStr.isdigit s = true →
  forallb PyStr.is_decimal_char (PyStr.chars s) = true →
  PyStr.int s = Ok (PyStr.decimal_value (PyStr.chars s)).
Proof.
  unfold PyStr.isdigit, PyStr.int. intros Hd Hdec.
  rewrite (strip_chars_decimal _ Hdec).
  destruct (PyStr.chars s) as [|c cs] eqn:Hcs; [discriminate|].
  pose proof Hdec as Hc. simpl in Hc. apply andb_prop in Hc as [Hc _].
  unfold PyStr.split_sign.
  destruct (decimal_char_plain c Hc) as (_ & -> & -> & _).
  by rewrite digits_of_decimal.
Qed.

(** [int] and [isdigit] on a few strings; the last one is the superscript
    two. *)
Example int_examples :
  PyStr.int "1872" = Ok 1872 ∧ PyStr.int " -12 " = Ok (-12)
  ∧ PyStr.int "1_000" = Ok 1000 ∧ PyStr.int "007" = Ok 7
  ∧ ¬ is_Ok (PyStr.int "") ∧ ¬ is_Ok (PyStr.int "1__0")
  ∧ ¬ is_Ok (PyStr.int "18 72") ∧ ¬ is_Ok (PyStr.int "N/A")
  ∧ PyStr.isdigit "1872" = true ∧ PyStr.isdigit "-12" = false
  ∧ PyStr.isdigit "" = false
  ∧ PyStr.isdigit (String (Ascii.ascii_of_nat 178) "") = true
  ∧ ¬ is_Ok (PyStr.int (String (Ascii.ascii_of_nat 178) "")).
Proof. repeat split; try reflexivity; intros [year Hyear]; discriminate. Qed.

(** ** The filter *)

Lemma in_range_ints (lo hi year : Z) :
  in_range [SInt lo; SInt hi] year = Ok ((lo <=? year) && (year <=? hi)).
Proof.
  unfold in_range. simpl. destruct (lo <=? year); reflexivity.
Qed.

(** A filter that accepts a record accepts it item by item. *)
Lemma _apply_filters_items (m : metadata) (items : filter_items) :
  _apply_filters m items = Ok true →
  ∀ key value, (key, value) ∈ items → apply_filter m key value = Ok true.
Proof.
  induction items as [|[k v] items IH]; intros Hall key value Hin.
  - by apply elem_of_nil in Hin.
  - simpl in Hall. inv_bind Hall. destruct a; [|discriminate].
    apply elem_of_cons in Hin as [Heq|Hin].
    + by injection Heq as -> ->.
    + by apply IH.
Qed.

(** What the year item demands of a record it accepts. *)
Lemma apply_filter_year_range (m : metadata) (bounds : list scalar) (s : string) :
  apply_filter m "year_range" (FTuple bounds) = Ok true →
  m !! "act_year" = Some (SStr s) →
  PyStr.isdigit s = true →
  ∃ year, PyStr.int s = Ok year ∧ in_range bounds year = Ok true.
Proof.
  intros Hpass Hyear Hdigits.
  unfold apply_filter in Hpass. simpl in Hpass.
  unfold Py.get in Hpass. rewrite Hyear in Hpass. simpl in Hpass.
  assert (String.eqb s "" = false) as Hne.
  { destruct s; [discriminate Hdigits | reflexivity]. }
  rewrite Hne, Hdigits in Hpass. simpl in Hpass.
  inv_bind Hpass. exists a. split; [exact Ha|].
  inv_bind Hpass. by destruct a0.
Qed.

(** A record whose year is not made of digits is let through by the year
    item, whatever the bounds. *)
Lemma apply_filter_year_not_digits (m : metadata) (bounds : list scalar)
    (s : string) :
  m !! "act_year" = Some (SStr s) →
  PyStr.isdigit s = false →
  apply_filter m "year_range" (FTuple bounds) = Ok true.
Proof.
  intros Hyear Hdigits. unfold apply_filter. simpl.
  unfold Py.get. rewrite Hyear. simpl. rewrite Hdigits.
  by destruct (String.eqb s "").
Qed.

(** An item whose value is a list is no year item. *)
Lemma apply_filter_year_list (m : metadata) (bounds : list scalar) :
  apply_filter m "year_range" (FList bounds) = Ok true.
Proof. reflexivity. Qed.

(** ** The search loop *)

Section Search.

Context `{Backend}.

Lemma candidate_Some (self : LegalRAGSystem) filters (s : Score) (idx : Z)
    (r : SearchResult) :
  candidate self filters (s, idx) = Ok (Some r) →
  idx ≠ -1
  ∧ Py.getitem (document_metadata self) idx = Ok (result_metadata r)
  ∧ Py.getitem (documents self) idx = Ok (content r)
  ∧ score r = s
  ∧ (filters_given filters = true →
     _apply_filters (result_metadata r) (default [] filters) = Ok true).
Proof.
  unfold candidate. intros Hc.
  destruct (idx =? -1) eqn:Hidx; [discriminate|].
  apply Z.eqb_neq in Hidx.
  inv_bind Hc. inv_bind Hc. destruct a0; [|discriminate].
  inv_bind Hc. injection Hc as <-. simpl.
  repeat split; try done.
  intros Hgiven. by rewrite Hgiven in Ha0.
Qed.

Lemma passed_cons (self : LegalRAGSystem) filters c candidates :
  passed self filters (c :: candidates)
  = match candidate self filters c with
    | Ok (Some r) => r :: passed self filters candidates
    | _ => passed self filters candidates
    end.
Proof.
  unfold passed. simpl.
  destruct (candidate self filters c) as [[r|]|e]; reflexivity.
Qed.

Lemma elem_of_passed (self : LegalRAGSystem) filters candidates r :
  r ∈ passed self filters candidates →
  ∃ c, c ∈ candidates ∧ candidate self filters c = Ok (Some r).
Proof.
  unfold passed. intros Hin.
  apply list_elem_of_omap in Hin as (c & Hc & Hr).
  exists c. split; [done|].
  destruct (candidate self filters c) as [o|e]; [by subst|discriminate].
Qed.

(** The loop returns what it had, followed by the first candidates that
    pass, up to [top_k] results in all. *)
Lemma search_loop_take (self : LegalRAGSystem) filters (top_k : Z)
    candidates results rs :
  Z.of_nat (length results) < top_k →
  search_loop self filters top_k candidates results = Ok rs →
  rs = results
       ++ take (Z.to_nat top_k - length results)%nat
               (passed self filters candidates).
Proof.
  revert results.
  induction candidates as [|c candidates IH]; intros results Hlt Hloop.
  - simpl in Hloop. injection Hloop as <-.
    unfold passed. simpl. by rewrite take_nil, app_nil_r.
  - simpl in Hloop. inv_bind Hloop. rewrite passed_cons, Ha.
    destruct a as [r|]; [|by apply IH].
    assert (Z.to_nat top_k - length results
            = S (Z.to_nat top_k - length (results ++ [r])))%nat as ->.
    { rewrite length_app. simpl. lia. }
    simpl.
    destruct (Z.of_nat (length (results ++ [r])) >=? top_k) eqn:Hfull.
    + injection Hloop as <-.
      assert (Z.to_nat top_k - length (results ++ [r]) = 0)%nat as ->.
      { apply Z.geb_le in Hfull. lia. }
      by rewrite take_0.
    + apply IH in Hloop.
      * rewrite Hloop. by rewrite <- app_assoc.
      * rewrite Z.geb_leb in Hfull. apply Z.leb_gt in Hfull. lia.
Qed.

Lemma search_loop_total (self : LegalRAGSystem) filters (top_k : Z)
    candidates results :
  all_rounds_return self filters candidates →
  is_Ok (search_loop self filters top_k candidates results).
Proof.
  intros Hall. revert results.
  induction Hall as [|c candidates [o Hc] _ IH]; intros results.
  - apply is_Ok_Ok.
  - simpl. rewrite Hc. simpl. destruct o as [r|]; [|apply IH].
    destruct (_ >=? _); [apply is_Ok_Ok | apply IH].
Qed.

Lemma search_Ok (self : LegalRAGSystem) query (top_k : Z) filters rs :
  search self query top_k filters = Ok rs →
  ∃ ix candidates,
    index self = Some ix ∧ neighbours ix query top_k = Ok candidates
    ∧ search_loop self filters top_k candidates [] = Ok rs.
Proof.
  unfold search. intros Hs.
  destruct (index self) as [ix|]; [|discriminate].
  inv_bind Hs. by exists ix, a.
Qed.

(** With [top_k > 0] the results are the first [top_k] candidates that
    pass. *)
Lemma search_take (self : LegalRAGSystem) query (top_k : Z) filters rs :
  0 < top_k →
  search self query top_k filters = Ok rs →
  ∃ ix candidates,
    index self = Some ix ∧ neighbours ix query top_k = Ok candidates
    ∧ rs = take (Z.to_nat top_k) (passed self filters candidates).
Proof.
  intros Hk Hs. apply search_Ok in Hs as (ix & candidates & Hix & Hn & Hloop).
  exists ix, candidates. repeat split; try done.
  apply search_loop_take in Hloop; [|simpl; lia].
  simpl in Hloop. by rewrite Nat.sub_0_r in Hloop.
Qed.

(** Whatever [top_k] is, the results that the loop adds are an initial part
    of the candidates that pass. *)
Lemma search_loop_prefix (self : LegalRAGSystem) filters (top_k : Z)
    candidates results rs :
  search_loop self filters top_k candidates results = Ok rs →
  ∃ n, rs = results ++ take n (passed self filters candidates).
Proof.
  revert results.
  induction candidates as [|c candidates IH]; intros results Hloop.
  - simpl in Hloop. injection Hloop as <-. exists 0%nat.
    by rewrite take_0, app_nil_r.
  - simpl in Hloop. inv_bind Hloop. rewrite passed_cons, Ha.
    destruct a as [r|]; [|by apply IH].
    destruct (_ >=? _).
    + injection Hloop as <-. exists 1%nat. simpl. by rewrite take_0.
    + apply IH in Hloop as [n ->]. exists (S n). simpl.
      by rewrite <- app_assoc.
Qed.

Lemma search_prefix (self : LegalRAGSystem) query (top_k : Z) filters rs :
  search self query top_k filters = Ok rs →
  ∃ ix candidates n,
    index self = Some ix ∧ neighbours ix query top_k = Ok candidates
    ∧ rs = take n (passed self filters candidates).
Proof.
  intros Hs. apply search_Ok in Hs as (ix & candidates & Hix & Hn & Hloop).
  apply search_loop_prefix in Hloop as [n ->]. by exists ix, candidates, n.
Qed.

(** Every result stands for a candidate that is a match and got through
    its round. *)
Lemma search_elem (self : LegalRAGSystem) query (top_k : Z) filters rs r :
  search self query top_k filters = Ok rs → r ∈ rs →
  ∃ ix candidates c,
    index self = Some ix ∧ neighbours ix query top_k = Ok candidates
    ∧ c ∈ candidates ∧ candidate self filters c = Ok (Some r).
Proof.
  intros Hs Hr.
  apply search_prefix in Hs as (ix & candidates & n & Hix & Hn & ->).
  apply (sublist_subseteq _ _ (sublist_take _ _)) in Hr.
  apply elem_of_passed in Hr as (c & Hc & Hcand).
  by exists ix, candidates, c.
Qed.

(** *** Order *)

Definition score_ge (r1 r2 : SearchResult) : Prop :=
  score_le (score r2) (score r1) = true.

Lemma passed_sorted (self : LegalRAGSystem) filters candidates :
  best_first candidates = true →
  StronglySorted score_ge (passed self filters candidates).
Proof.
  induction candidates as [|[s idx] candidates IH]; intros Hbest.
  - constructor.
  - simpl in Hbest. apply andb_prop in Hbest as [Hhead Hrest].
    rewrite passed_cons.
    destruct (candidate self filters (s, idx)) as [[r|]|e] eqn:Hc; auto.
    apply candidate_Some in Hc as (Hidx & _ & _ & Hscore & _).
    constructor; [by apply IH|].
    apply Forall_forall. intros r' Hr'.
    apply elem_of_passed in Hr' as ([s' idx'] & Hin & Hc').
    apply candidate_Some in Hc' as (Hidx' & _ & _ & Hscore' & _).
    rewrite forallb_forall in Hhead.
    apply list_elem_of_In in Hin. specialize (Hhead _ Hin). simpl in Hhead.
    apply Z.eqb_neq in Hidx, Hidx'. rewrite Hidx, Hidx' in Hhead.
    simpl in Hhead. unfold score_ge. by rewrite Hscore, Hscore'.
Qed.

Lemma StronglySorted_take {A} (R : relation A) (l : list A) (n : nat) :
  StronglySorted R l → StronglySorted R (take n l).
Proof.
  intros Hl. rewrite <- (take_drop n l) in Hl.
  by apply StronglySorted_app_1_l in Hl.
Qed.

Lemma StronglySorted_adjacent {A} (R : relation A) (l : list A) (i : nat) a b :
  StronglySorted R l → l !! i = Some a → l !! S i = Some b → R a b.
Proof.
  intros Hl. revert i. induction Hl as [|x l Hl IH Hx]; intros i Ha Hb.
  - discriminate.
  - destruct i as [|i]; simpl in *.
    + injection Ha as ->. rewrite Forall_forall in Hx.
      apply Hx. by eapply list_elem_of_lookup_2.
    + by eapply IH.
Qed.

(** *** Rounds that cannot raise *)

Lemma getitem_in_range {A} (l : list A) (i : Z) :
  0 ≤ i < Z.of_nat (length l) → is_Ok (Py.getitem l i).
Proof.
  intros Hi. unfold Py.getitem.
  destruct (i <? 0) eqn:Hneg; [apply Z.ltb_lt in Hneg; lia|].
  destruct (0 <=? i) eqn:H0; [|apply Z.leb_gt in H0; lia].
  destruct (i <? Z.of_nat (length l)) eqn:H1; [|apply Z.ltb_ge in H1; lia].
  simpl. destruct (l !! Z.to_nat i) as [a|] eqn:Hl; [apply is_Ok_Ok|].
  apply lookup_ge_None in Hl. lia.
Qed.

Lemma getitem_lookup {A} (l : list A) (i : Z) (a : A) :
  0 ≤ i → Py.getitem l i = Ok a → l !! Z.to_nat i = Some a.
Proof.
  intros Hi. unfold Py.getitem.
  destruct (i <? 0) eqn:Hneg; [apply Z.ltb_lt in Hneg; lia|].
  destruct (_ && _); [|discriminate].
  destruct (l !! Z.to_nat i); [|discriminate]. by intros [= ->].
Qed.

Lemma any_keyword_total (content_lower : string) (keywords : list scalar) :
  forallb is_str keywords = true → is_Ok (any_keyword content_lower keywords).
Proof.
  induction keywords as [|kw keywords IH]; intros Hstr; simpl.
  - apply is_Ok_Ok.
  - simpl in Hstr. apply andb_prop in Hstr as [Hkw Hrest].
    destruct kw; try discriminate. simpl.
    destruct (PyStr.contains _ _); [apply is_Ok_Ok | by apply IH].
Qed.

Lemma apply_filter_total (m : metadata) (key : string) (value : fvalue) :
  well_typed_metadata m = true → well_typed_item (key, value) = true →
  is_Ok (apply_filter m key value).
Proof.
  unfold well_typed_metadata, well_typed_item, apply_filter. simpl.
  intros Hm Hitem. apply andb_prop in Hm as [Hyear Htitle].
  destruct value as [[| b | z | s] | keywords | bounds]; simpl.
  - repeat destruct (String.eqb key _); apply is_Ok_Ok.
  - repeat destruct (String.eqb key _); try apply is_Ok_Ok;
      destruct (Py.eq_bool _ _); apply is_Ok_Ok.
  - repeat destruct (String.eqb key _); apply is_Ok_Ok.
  - repeat destruct (String.eqb key _); try apply is_Ok_Ok;
      destruct (Py.eq_str _ _); apply is_Ok_Ok.
  - destruct (String.eqb key "year_range"), (String.eqb key "is_repealed"),
      (String.eqb key "language"); simpl;
    (destruct (String.eqb key "keywords"); [|apply is_Ok_Ok]);
    simpl in Hitem; unfold Py.get;
    (destruct (m !! "act_title") as [[| | |t]|]; try discriminate; simpl;
     match goal with
     | |- context [any_keyword ?c keywords] =>
         destruct (any_keyword_total c keywords Hitem) as [found ->]
     end; simpl; destruct found; apply is_Ok_Ok).
  - destruct (String.eqb key "year_range"); simpl.
    + simpl in Hitem.
      destruct bounds as [|[| | lo |] [|[| | hi |] bounds]]; try discriminate.
      unfold Py.get.
      destruct (m !! "act_year") as [[| | |s]|]; try discriminate; simpl;
        [|apply is_Ok_Ok].
      destruct (String.eqb s ""); simpl; [apply is_Ok_Ok|].
      destruct (PyStr.isdigit s) eqn:Hd; simpl; [|apply is_Ok_Ok].
      simpl in Hyear.
      rewrite (int_decimal s Hd Hyear). simpl.
      unfold in_range. simpl.
      destruct (lo <=? _); simpl; [|apply is_Ok_Ok].
      destruct (_ <=? hi); apply is_Ok_Ok.
    + repeat destruct (String.eqb key _); apply is_Ok_Ok.
Qed.

Lemma _apply_filters_total (m : metadata) (items : filter_items) :
  well_typed_metadata m = true → forallb well_typed_item items = true →
  is_Ok (_apply_filters m items).
Proof.
  intros Hm. induction items as [|[key value] items IH]; intros Hitems; simpl.
  - apply is_Ok_Ok.
  - simpl in Hitems. apply andb_prop in Hitems as [Hitem Hrest].
    destruct (apply_filter_total m key value Hm Hitem) as [pass ->]. simpl.
    destruct pass; [by apply IH | apply is_Ok_Ok].
Qed.

Lemma candidate_total (self : LegalRAGSystem) filters (n : nat) c :
  length (documents self) = n → length (document_metadata self) = n →
  forallb well_typed_metadata (document_metadata self) = true →
  well_typed_filters filters = true →
  (c.2 =? -1) || (0 <=? c.2) && (c.2 <? Z.of_nat n) = true →
  is_Ok (candidate self filters c).
Proof.
  intros Hdocs Hmds Hwt Hf Hid. destruct c as [s idx]. simpl in Hid.
  unfold candidate. destruct (idx =? -1); [apply is_Ok_Ok|]. simpl in Hid.
  apply andb_prop in Hid as [H0 Hn].
  apply Z.leb_le in H0. apply Z.ltb_lt in Hn.
  destruct (getitem_in_range (document_metadata self) idx) as [m Hm]; [lia|].
  destruct (getitem_in_range (documents self) idx) as [d Hd]; [lia|].
  rewrite Hm. simpl.
  assert (well_typed_metadata m = true) as Hwm.
  { rewrite forallb_forall in Hwt. apply Hwt, list_elem_of_In.
    eapply list_elem_of_lookup_2. by apply getitem_lookup. }
  assert (is_Ok (if filters_given filters
                 then _apply_filters m (default [] filters)
                 else Ok true)) as [pass ->].
  { destruct (filters_given filters); [|apply is_Ok_Ok].
    by apply _apply_filters_total. }
  simpl. destruct pass; [|apply is_Ok_Ok]. rewrite Hd. apply is_Ok_Ok.
Qed.

End Search.

(** ** Search: bounded, ordered, filtered *)

Section SearchClaims.

Context `{Backend}.

(** C3.  With [top_k > 0], whatever the index hands over and whatever the
    filter is, a list that [search] returns has at most [top_k] results: it
    is the first [top_k] of the candidates that pass, so that when fewer
    than [top_k] of the candidates fetched for [2 * top_k] pass it is
    exactly those, without padding.  And [search] does return when the
    index is aligned with a well-typed corpus, the filter is well typed and
    the candidates are slots without a match or positions of the index. *)
Theorem search_bounded (self : LegalRAGSystem) (ix : IndexFlatIP)
    (query : string) (top_k : Z) (filters : option filter_items)
    (candidates : list (Score * Z)) :
  0 < top_k →
  index self = Some ix →
  neighbours ix query top_k = Ok candidates →
  (∀ rs, search self query top_k filters = Ok rs →
     Z.of_nat (length rs) ≤ top_k
     ∧ rs = take (Z.to_nat top_k) (passed self filters candidates)
     ∧ (Z.of_nat (length (passed self filters candidates)) < top_k →
        rs = passed self filters candidates))
  ∧ (length (documents self) = ntotal ix →
     length (document_metadata self) = ntotal ix →
     valid_ids (ntotal ix) candidates = true →
     forallb well_typed_metadata (document_metadata self) = true →
     well_typed_filters filters = true →
     is_Ok (search self query top_k filters)).
Proof.
  intros Hk Hix Hn. split.
  - intros rs Hs.
    apply search_take in Hs as (ix' & candidates' & Hix' & Hn' & ->); [|done].
    rewrite Hix in Hix'. injection Hix' as <-.
    rewrite Hn in Hn'. injection Hn' as <-.
    split; [rewrite length_take; lia|]. split; [done|].
    intros Hfew. apply take_ge. lia.
  - intros Hdocs Hmds Hids Hwt Hf.
    unfold search. rewrite Hix, Hn. simpl.
    apply search_loop_total, Forall_forall. intros c Hc.
    apply (candidate_total self filters (ntotal ix)); try done.
    unfold valid_ids in Hids. rewrite forallb_forall in Hids.
    by apply Hids, list_elem_of_In.
Qed.

(** C4.  When the candidates that FAISS hands over are best first, the
    results of [search] are in non-increasing order of score:
    [result[i].score >= result[i+1].score] for every valid [i]. *)
Theorem search_descending (self : LegalRAGSystem) (ix : IndexFlatIP)
    (query : string) (top_k : Z) (filters : option filter_items)
    (candidates : list (Score * Z)) (rs : list SearchResult) :
  index self = Some ix →
  neighbours ix query top_k = Ok candidates →
  best_first candidates = true →
  search self query top_k filters = Ok rs →
  descending rs.
Proof.
  intros Hix Hn Hbest Hs.
  apply search_prefix in Hs as (ix' & candidates' & n & Hix' & Hn' & ->).
  rewrite Hix in Hix'. injection Hix' as <-.
  rewrite Hn in Hn'. injection Hn' as <-.
  intros i r1 r2 H1 H2.
  eapply (StronglySorted_adjacent score_ge); [|exact H1|exact H2].
  by apply StronglySorted_take, passed_sorted.
Qed.

(** C8, as the code has it.  When the filter carries [year_range] as a
    tuple [(lo, hi)] of integers, every result whose [act_year] is a string
    of digits has a year [y] with [lo <= y <= hi]. *)
Theorem year_range_tuple_bounds_digit_years (self : LegalRAGSystem)
    (query : string) (top_k : Z) (items : filter_items) (lo hi : Z)
    (rs : list SearchResult) :
  ("year_range", FTuple [SInt lo; SInt hi]) ∈ items →
  search self query top_k (Some items) = Ok rs →
  ∀ r s, r ∈ rs →
    result_metadata r !! "act_year" = Some (SStr s) →
    PyStr.isdigit s = true →
    ∃ year, PyStr.int s = Ok year ∧ lo ≤ year ≤ hi.
Proof.
  intros Hitem Hs r s Hr Hyear Hdigits.
  destruct (search_elem _ _ _ _ _ _ Hs Hr)
    as (ix & candidates & [sc idx] & _ & _ & _ & Hc).
  apply candidate_Some in Hc as (_ & _ & _ & _ & Hpass).
  assert (filters_given (Some items) = true) as Hgiven.
  { destruct items; [by apply elem_of_nil in Hitem | reflexivity]. }
  specialize (Hpass Hgiven). simpl in Hpass.
  pose proof (_apply_filters_items _ _ Hpass _ _ Hitem) as Hrange.
  destruct (apply_filter_year_range _ _ _ Hrange Hyear Hdigits)
    as (year & Hint & Hin).
  exists year. split; [exact Hint|].
  rewrite in_range_ints in Hin. injection Hin as Hin.
  apply andb_prop in Hin as [Hlo Hhi].
  apply Z.leb_le in Hlo, Hhi. lia.
Qed.

End SearchClaims.

(** ** The prompt *)

Section Prompt.

Context `{Backend}.

(** C5.  A mode outside the five known ones renders the same text as
    [general]. *)
Theorem unknown_mode_renders_general (mode query context : string)
    (history : option (list turn)) :
  mode ∉ ["general"; "lawyer"; "argument"; "research"; "simple"] →
  _get_prompt_template mode query context history
  = _get_prompt_template "general" query context history.
Proof.
  intros Hmode. unfold _get_prompt_template.
  destruct (String.eqb_spec mode "lawyer") as [->|_]; [set_solver|].
  destruct (String.eqb_spec mode "argument") as [->|_]; [set_solver|].
  destruct (String.eqb_spec mode "research") as [->|_]; [set_solver|].
  destruct (String.eqb_spec mode "simple") as [->|_]; [set_solver|].
  reflexivity.
Qed.

(** C10.  The prompt does not depend on the conversation history, and so
    neither does the response generated from it. *)
Theorem prompt_ignores_history (mode query context : string)
    (h1 h2 : option (list turn)) (sources : list SearchResult) :
  _get_prompt_template mode query context h1
  = _get_prompt_template mode query context h2
  ∧ generate_response query sources mode h1
    = generate_response query sources mode h2.
Proof. split; reflexivity. Qed.

(** The five modes give five different texts. *)
Lemma instructions_differ :
  NoDup [lawyer_instructions; argument_instructions; research_instructions;
         simple_instructions; general_instructions].
Proof. apply (bool_decide_unpack _). by vm_compute. Qed.

End Prompt.

(** ** The chat turn *)

Section Chat.

Context `{Backend}.

Lemma generate_response_nonempty (query : string)
    (sources : list SearchResult) (mode : string)
    (history : option (list turn)) :
  generate_response query sources mode history ≠ "".
Proof.
  unfold generate_response.
  destruct (generate_content _) as [text|e].
  - destruct (String.eqb_spec text "") as [->|Hne]; simpl; [discriminate|done].
  - discriminate.
Qed.

(** C1, as the code has it.  When [search] returns, [get_chat_response]
    returns the answer together with the very list [search] returned, and
    does so also when the generation model raises: the answer then is the
    error text with the detail of the exception, and the sources are still
    the search results.  When [search] raises, the exception leaves
    [get_chat_response]. *)
Theorem chat_response_returns_search_results (self : LegalRAGSystem)
    (query mode : string) (filters : option filter_items)
    (history : option (list turn)) (top_k : Z) :
  match search self query top_k filters with
  | Raise e =>
      get_chat_response self query mode filters history top_k = Raise e
  | Ok sources =>
      ∃ answer,
        get_chat_response self query mode filters history top_k
        = Ok (answer, sources)
        ∧ answer ≠ ""
        ∧ ∀ e,
            generate_content
              (_get_prompt_template mode query (_build_context sources) history)
            = Raise e →
            answer
            = "I encountered an error while processing your request: "
              +:+ exn_str e
  end.
Proof.
  unfold get_chat_response.
  destruct (search self query top_k filters) as [sources|e]; [|reflexivity].
  simpl. eexists. split; [reflexivity|].
  split; [apply generate_response_nonempty|].
  intros e He. unfold generate_response. by rewrite He.
Qed.

End Chat.

(** ** Building and persisting *)

Section Store.

Context `{Backend}.

Lemma save_with_index (self : LegalRAGSystem) (store : vector_store)
    (ix : IndexFlatIP) :
  index self = Some ix →
  save_vector_store self store
  = (Ok (), MkStore (Some ix) (Some (documents self))
                    (Some (document_metadata self))).
Proof. intros Hix. unfold save_vector_store. by rewrite Hix. Qed.

Lemma load_complete (self : LegalRAGSystem) (ix : IndexFlatIP)
    (docs : list string) (mds : list metadata) :
  load_vector_store self (MkStore (Some ix) (Some docs) (Some mds))
  = (true, MkRAG (Some ix) docs mds).
Proof. reflexivity. Qed.

Lemma load_true (self self' : LegalRAGSystem) (store : vector_store) :
  load_vector_store self store = (true, self') →
  ∃ ix, index_faiss store = Some ix
        ∧ documents_pkl store = Some (documents self')
        ∧ metadata_pkl store = Some (document_metadata self')
        ∧ index self' = Some ix.
Proof.
  unfold load_vector_store. intros Hload.
  destruct (index_faiss store) as [ix|]; [|discriminate].
  destruct (documents_pkl store) as [docs|]; [|discriminate].
  destruct (metadata_pkl store) as [mds|]; [|discriminate].
  injection Hload as <-. by exists ix.
Qed.

(** C7.  A system with an index saves without an exception, and a fresh
    system that then loads from the same directory gets [True] and the same
    contents and metadata, position by position. *)
Theorem save_load_roundtrip (self : LegalRAGSystem) (store : vector_store)
    (ix : IndexFlatIP) :
  index self = Some ix →
  ∃ store' loaded,
    save_vector_store self store = (Ok (), store')
    ∧ load_vector_store init store' = (true, loaded)
    ∧ documents loaded = documents self
    ∧ document_metadata loaded = document_metadata self
    ∧ index loaded = Some ix.
Proof.
  intros Hix. eexists _, _.
  split; [by apply save_with_index|].
  split; [apply load_complete|]. done.
Qed.

Lemma build_returns (self : LegalRAGSystem) (store : vector_store)
    (docs : list chunk) (row : Vec) (rows : list Vec) :
  encode (map chunk_content docs) = Ok (row :: rows) →
  let ix := MkIndex (dim row) (normalize_L2 (row :: rows)) in
  build_vector_store self store docs
  = (Ok (),
     MkRAG (Some ix) (map chunk_content docs) (map chunk_metadata docs),
     MkStore (Some ix) (Some (map chunk_content docs))
             (Some (map chunk_metadata docs))).
Proof.
  intros Henc. unfold build_vector_store, create_embeddings. simpl.
  rewrite Henc. reflexivity.
Qed.

Lemma build_encoder_raises (self : LegalRAGSystem) (store : vector_store)
    (docs : list chunk) (e : exn) :
  encode (map chunk_content docs) = Raise e →
  build_vector_store self store docs
  = (Raise e,
     MkRAG (index self) (map chunk_content docs) (map chunk_metadata docs),
     store).
Proof.
  intros Henc. unfold build_vector_store, create_embeddings. simpl.
  by rewrite Henc.
Qed.

Lemma build_no_rows (self : LegalRAGSystem) (store : vector_store)
    (docs : list chunk) :
  encode (map chunk_content docs) = Ok [] →
  build_vector_store self store docs
  = (Raise (Exn IndexError "tuple index out of range"),
     MkRAG (index self) (map chunk_content docs) (map chunk_metadata docs),
     store).
Proof.
  intros Henc. unfold build_vector_store, create_embeddings. simpl.
  by rewrite Henc.
Qed.

(** C6, as the code has it.  When the encoder raises for the batch, the
    build raises the same exception; when there are no chunks and the
    encoder answers with no rows, the build raises an [IndexError].  Either
    way no chunk is skipped: there is no new index, nothing is written, and
    only the contents and the metadata in memory have been replaced. *)
Theorem build_propagates_failure (self : LegalRAGSystem)
    (store : vector_store) (docs : list chunk) (e : exn) :
  encode (map chunk_content docs) = Raise e
  ∨ (docs = [] ∧ encode [] = Ok []
     ∧ e = Exn IndexError "tuple index out of range") →
  build_vector_store self store docs
  = (Raise e,
     MkRAG (index self) (map chunk_content docs) (map chunk_metadata docs),
     store).
Proof.
  intros [Henc|(-> & Henc & ->)].
  - by apply build_encoder_raises.
  - by apply build_no_rows.
Qed.

(** A build leaves the directory aligned, whether it returns or raises,
    as long as the encoder gives one row per text. *)
Lemma build_keeps_store_aligned (self : LegalRAGSystem)
    (store : vector_store) (docs : list chunk) :
  (∀ rows, encode (map chunk_content docs) = Ok rows →
           length rows = length docs) →
  store_aligned store →
  store_aligned (build_vector_store self store docs).2.
Proof.
  intros Hrows Hstore.
  destruct (encode (map chunk_content docs)) as [[|row rows]|e] eqn:Henc.
  - by rewrite (build_no_rows self store docs Henc).
  - rewrite (build_returns self store docs row rows Henc). simpl.
    intros ix docs' mds [= <-] [= <-] [= <-].
    unfold ntotal, normalize_L2. simpl.
    rewrite !length_map. specialize (Hrows _ eq_refl). simpl in Hrows.
    by rewrite Hrows.
  - by rewrite (build_encoder_raises self store docs e Henc).
Qed.

Lemma build_Ok (self self' : LegalRAGSystem) (store store' : vector_store)
    (docs : list chunk) :
  build_vector_store self store docs = (Ok (), self', store') →
  ∃ row rows, encode (map chunk_content docs) = Ok (row :: rows).
Proof.
  intros Hb.
  destruct (encode (map chunk_content docs)) as [[|row rows]|e] eqn:Henc.
  - by rewrite (build_no_rows self store docs Henc) in Hb.
  - by exists row, rows.
  - by rewrite (build_encoder_raises self store docs e Henc) in Hb.
Qed.

(** A build that returns leaves the attributes and the files aligned. *)
Lemma build_returns_aligned (self self' : LegalRAGSystem)
    (store store' : vector_store) (docs : list chunk) :
  one_row_per_text →
  build_vector_store self store docs = (Ok (), self', store') →
  aligned self' ∧ store_aligned store'
  ∧ is_Some (index_faiss store') ∧ is_Some (documents_pkl store')
  ∧ is_Some (metadata_pkl store').
Proof.
  intros Hrows Hb. destruct (build_Ok _ _ _ _ _ Hb) as (row & rows & Henc).
  rewrite (build_returns self store docs row rows Henc) in Hb.
  injection Hb as <- <-.
  assert (length (normalize_L2 (row :: rows)) = length docs) as Hn.
  { unfold normalize_L2. rewrite length_map, (Hrows _ _ Henc).
    apply length_map. }
  split; [|split; [|by repeat split]].
  - eexists. split; [reflexivity|]. simpl. unfold ntotal. simpl.
    rewrite !length_map. split; [|done]. by rewrite <- Hn.
  - intros ix docs' mds [= <-] [= <-] [= <-]. unfold ntotal. simpl.
    rewrite !length_map. split; [|done]. by rewrite <- Hn.
Qed.

(** In a history in which every build returns, the system has no index or
    is aligned, and the directory is aligned. *)
Lemma run_stays_aligned (calls : list call) :
  one_row_per_text →
  every_build_returns calls →
  (index (run calls).1 = None ∨ aligned (run calls).1)
  ∧ store_aligned (run calls).2.
Proof.
  intros Hrows Hcalls. unfold run.
  set (whole := λ store : vector_store,
         (index_faiss store = None ∧ documents_pkl store = None
          ∧ metadata_pkl store = None)
         ∨ (is_Some (index_faiss store) ∧ is_Some (documents_pkl store)
            ∧ is_Some (metadata_pkl store))).
  assert (∀ w, (index w.1 = None ∨ aligned w.1) → store_aligned w.2 →
               whole w.2 →
               (index (foldl step w calls).1 = None
                ∨ aligned (foldl step w calls).1)
               ∧ store_aligned (foldl step w calls).2) as Hfold.
  { induction Hcalls as [|c calls Hc _ IH]; intros [self store] Hself Hstore Hwhole;
      [done|].
    simpl in *. destruct c as [docs| | |]; simpl.
    - destruct Hc as (row & rows & Henc).
      pose proof (build_returns self store docs row rows Henc) as Hb.
      simpl in Hb.
      destruct (build_returns_aligned _ _ _ _ _ Hrows Hb)
        as (Ha & Hs & Hw).
      rewrite Hb. apply IH; [by right | done | by right].
    - destruct Hself as [Hnone|Ha].
      + unfold save_vector_store. rewrite Hnone. simpl.
        apply IH; [by left | done | done].
      + destruct Ha as (ix & Hix & Hn & Hm).
        rewrite (save_with_index self store ix Hix). apply IH.
        * right. by exists ix.
        * intros ix' docs' mds' [= <-] [= <-] [= <-]. done.
        * right. by repeat split.
    - destruct Hwhole as [(Hi & Hd & Hm) | ([ix Hi] & [docs Hd] & [mds Hm])].
      + unfold load_vector_store. rewrite Hi. simpl.
        apply IH; [done | done | by left].
      + destruct store as [si sd sm]. simpl in Hi, Hd, Hm. subst.
        rewrite load_complete. apply IH; [|done|by right; repeat split].
        right. exists ix. split; [done|]. by apply (Hstore ix).
    - apply IH; [by left | done | done]. }
  apply Hfold; [by left | | by left].
  intros ix docs mds. discriminate.
Qed.

(** C9, as the code has it.  A build returns when the encoder gives rows,
    and a build that returns leaves the index, the contents and the
    metadata with the same length, row [i] of the index being the
    normalised embedding of content [i]; a load that returns [True] from
    an aligned directory does the same, and the directory is aligned, and
    the system aligned or without an index, throughout every history of
    builds, saves, loads and restarts in which every build returns; every
    result of [search] pairs [documents[idx]] with [document_metadata[idx]]
    for the index [idx] of one candidate.  The encoder is taken to give
    one row per text. *)
Theorem stores_stay_aligned :
  (∀ (self : LegalRAGSystem) (store : vector_store) docs rows,
      encode (map chunk_content docs) = Ok rows →
      length rows = length docs → docs ≠ [] →
      ∃ self' store' ix,
        build_vector_store self store docs = (Ok (), self', store')
        ∧ aligned self' ∧ store_aligned store'
        ∧ index self' = Some ix ∧ index_rows ix = normalize_L2 rows
        ∧ documents self' = map chunk_content docs
        ∧ document_metadata self' = map chunk_metadata docs)
  ∧ (∀ (self self' : LegalRAGSystem) (store : vector_store),
      store_aligned store →
      load_vector_store self store = (true, self') →
      aligned self')
  ∧ (∀ (self : LegalRAGSystem) query top_k filters rs r,
      search self query top_k filters = Ok rs → r ∈ rs →
      ∃ ix candidates s idx,
        index self = Some ix ∧ neighbours ix query top_k = Ok candidates
        ∧ (s, idx) ∈ candidates ∧ idx ≠ -1 ∧ score r = s
        ∧ Py.getitem (documents self) idx = Ok (content r)
        ∧ Py.getitem (document_metadata self) idx = Ok (result_metadata r))
  ∧ (∀ (self self' : LegalRAGSystem) (store store' : vector_store) docs,
      one_row_per_text →
      build_vector_store self store docs = (Ok (), self', store') →
      aligned self' ∧ store_aligned store')
  ∧ (∀ calls,
      one_row_per_text → every_build_returns calls →
      (index (run calls).1 = None ∨ aligned (run calls).1)
      ∧ store_aligned (run calls).2
      ∧ ∀ self', load_vector_store (run calls).1 (run calls).2
                 = (true, self') →
                 aligned self').
Proof.
  split; [|split; [|split; [|split]]].
  - intros self store docs rows Henc Hlen Hdocs.
    destruct rows as [|row rows]; [by destruct docs|].
    eexists _, _, _. split; [by apply build_returns|].
    assert (length (normalize_L2 (row :: rows)) = length docs) as Hn.
    { unfold normalize_L2. by rewrite length_map. }
    assert (∀ A (f : chunk → A), length (normalize_L2 (row :: rows))
                                 = length (map f docs)) as Hmap.
    { intros A f. by rewrite length_map. }
    split; [|split; [|done]].
    + eexists. split; [reflexivity|]. split; [apply Hmap|].
      simpl. by rewrite !length_map.
    + intros ix docs' mds [= <-] [= <-] [= <-].
      split; [apply Hmap | by rewrite !length_map].
  - intros self self' store Hstore Hload.
    apply load_true in Hload as (ix & Hix & Hdocs & Hmds & Hself).
    exists ix. split; [done|]. by apply (Hstore ix).
  - intros self query top_k filters rs r Hs Hr.
    destruct (search_elem _ _ _ _ _ _ Hs Hr)
      as (ix & candidates & [s idx] & Hix & Hn & Hin & Hc).
    apply candidate_Some in Hc as (Hidx & Hmd & Hdoc & Hscore & _).
    by exists ix, candidates, s, idx.
  - intros self self' store store' docs Hrows Hb.
    destruct (build_returns_aligned _ _ _ _ _ Hrows Hb) as (Ha & Hs & _).
    by split.
  - intros calls Hrows Hcalls.
    destruct (run_stays_aligned calls Hrows Hcalls) as [Hself Hstore].
    split; [done|]. split; [done|]. intros self' Hload.
    apply load_true in Hload as (ix & Hix & Hdocs & Hmds & Hself').
    exists ix. split; [done|]. by apply (Hstore ix).
Qed.

End Store.

(** ** The year filter lets an unreadable year through *)

(** Whatever the bounds, a record whose year is a string that is not made
    of digits passes a filter that only has a year range. *)
Lemma year_range_fails_open (m : metadata) (s : string) (bounds : list scalar) :
  m !! "act_year" = Some (SStr s) →
  PyStr.isdigit s = false →
  _apply_filters m [("year_range", FTuple bounds)] = Ok true.
Proof.
  intros Hyear Hdigits. simpl.
  by rewrite (apply_filter_year_not_digits m bounds s Hyear Hdigits).
Qed.

(** No record whose year [int] cannot read is ever rejected by the year
    range: it passes, or (a year of superscript digits) [int] raises. *)
Lemma year_range_never_rejects_unparseable (m : metadata) (s : string)
    (bounds : list scalar) :
  m !! "act_year" = Some (SStr s) →
  ¬ is_Ok (PyStr.int s) →
  _apply_filters m [("year_range", FTuple bounds)] ≠ Ok false.
Proof.
  intros Hyear Hint. simpl. unfold apply_filter. simpl.
  unfold Py.get. rewrite Hyear. simpl.
  destruct (String.eqb s ""); [discriminate|]. simpl.
  destruct (PyStr.isdigit s); [|discriminate]. simpl.
  destruct (PyStr.int s) as [year|e]; [|discriminate].
  destruct Hint. apply is_Ok_Ok.
Qed.

(** C2.  For the record with the year [N/A], which [int] cannot read, and
    the range (1971, 2024), [_apply_filters] answers [True], where the
    claim wants [False]; the year filter of the document processor drops
    the same record. *)
Theorem year_filter_passes_unparseable_year :
  let m : metadata := <["act_year" := SStr "N/A"]> ∅ in
  PyStr.int "N/A"
  = Raise (Exn ValueError "invalid literal for int() with base 10: 'N/A'")
  ∧ _apply_filters m [("year_range", FTuple [SInt 1971; SInt 2024])] = Ok true
  ∧ DataProcessor.filter_by_year_range
      [Chunk "Act of unknown year" "overview" "7_overview" m] 1971 2024
    = Ok [].
Proof. repeat split. Qed.

(** * The engine on the scenario of the specification *)

(** Closes an equation between closed terms by evaluating both sides. *)
Ltac by_evaluation :=
  lazymatch goal with
  | |- @eq ?T ?l ?r => vm_cast_no_check (@eq_refl T r)
  end.

(** The claim C1 fails twice: without an index the [ValueError] of [search]
    leaves [get_chat_response], and with a generation model that always
    raises the sources are the search results, not the empty list. *)
Lemma chat_response_counterexample :
  @get_chat_response (Toy.backend Toy.down) init
    "contract" "general" None None 5
  = Raise (Exn ValueError "Vector store not built or loaded")
  ∧ ∃ answer sources,
      @get_chat_response (Toy.backend Toy.down) (Toy.built Toy.down)
        "contract" "general" None None 1
      = Ok (answer, sources)
      ∧ answer
        = "I encountered an error while processing your request: 429 quota exceeded"
      ∧ length sources = 1%nat ∧ sources ≠ [].
Proof.
  split; [reflexivity|].
  eexists _, _. split; [vm_compute; reflexivity|].
  split; [reflexivity|]. split; [reflexivity|discriminate].
Qed.

Lemma chat_response_returns_search_results_witness :
  ∃ answer sources,
    @get_chat_response (Toy.backend Toy.down) (Toy.built Toy.down)
      "contract" "general" None None 1
    = Ok (answer, sources)
    ∧ @search (Toy.backend Toy.down) (Toy.built Toy.down) "contract" 1 None
      = Ok sources
    ∧ answer
      = "I encountered an error while processing your request: 429 quota exceeded".
Proof.
  pose proof (@chat_response_returns_search_results (Toy.backend Toy.down)
                (Toy.built Toy.down) "contract" "general" None None 1) as Hc.
  destruct (@search (Toy.backend Toy.down) (Toy.built Toy.down)
              "contract" 1 None) as [sources|e] eqn:Hs;
    [|vm_compute in Hs; discriminate Hs].
  destruct Hc as (answer & Hget & _ & Herr).
  exists answer, sources. split; [exact Hget|]. split; [reflexivity|].
  apply (Herr (Exn RuntimeError "429 quota exceeded")). reflexivity.
Defined.

(** With [top_k = 2] and only repealed acts asked for, one of the four
    candidates passes, and [search] returns that one. *)
Lemma search_bounded_witness :
  ∃ rs,
    @search (Toy.backend Toy.up) (Toy.built Toy.up) "contract" 2
      Toy.repealed_only = Ok rs
    ∧ length rs = 1%nat
    ∧ Z.of_nat (length rs) ≤ 2
    ∧ rs = take (Z.to_nat 2)
             (@passed (Toy.backend Toy.up) (Toy.built Toy.up)
                Toy.repealed_only Toy.candidates)
    ∧ (Z.of_nat (length (@passed (Toy.backend Toy.up) (Toy.built Toy.up)
                           Toy.repealed_only Toy.candidates)) < 2 →
       rs = @passed (Toy.backend Toy.up) (Toy.built Toy.up)
              Toy.repealed_only Toy.candidates).
Proof.
  destruct (@search_bounded (Toy.backend Toy.up) (Toy.built Toy.up)
              (Toy.built_index Toy.up) "contract" 2 Toy.repealed_only
              Toy.candidates) as [Hbound Hreturns];
    [lia | reflexivity | reflexivity |].
  destruct Hreturns as [rs Hrs]; [reflexivity..|].
  exists rs. split; [exact Hrs|].
  split; [|by apply Hbound].
  vm_compute in Hrs. injection Hrs as <-. reflexivity.
Defined.

Lemma search_descending_witness :
  ∃ rs,
    @search (Toy.backend Toy.up) (Toy.built Toy.up) "contract" 2
      Toy.active_only = Ok rs
    ∧ length rs = 2%nat
    ∧ @descending (Toy.backend Toy.up) rs.
Proof.
  eexists. split; [vm_compute; reflexivity|]. split; [reflexivity|].
  apply (@search_descending (Toy.backend Toy.up) (Toy.built Toy.up)
           (Toy.built_index Toy.up) "contract" 2 Toy.active_only
           Toy.candidates);
    [reflexivity | reflexivity | reflexivity | vm_compute; reflexivity].
Defined.

Lemma unknown_mode_renders_general_witness :
  @_get_prompt_template (Toy.backend Toy.up) "unknown_value"
    "What is theft?" "No relevant legal documents found." None
  = @_get_prompt_template (Toy.backend Toy.up) "general"
      "What is theft?" "No relevant legal documents found." None.
Proof.
  apply unknown_mode_renders_general.
  apply (bool_decide_unpack _). reflexivity.
Defined.

(** The claim C6 fails: the encoder refuses the second chunk, and the build
    raises instead of going on with the first one; nothing is indexed and
    nothing is written.  With no chunks the build raises an [IndexError]. *)
Lemma build_skips_nothing_counterexample :
  @encode (Toy.backend Toy.up) ["Contract Act"] = Ok [[12; 3]]
  ∧ @build_vector_store (Toy.backend Toy.up) init empty_store Toy.bad_corpus
    = (Raise (Exn RuntimeError "cannot embed an empty text"),
       MkRAG None ["Contract Act"; ""] (map chunk_metadata Toy.bad_corpus),
       empty_store)
  ∧ @build_vector_store (Toy.backend Toy.up) init empty_store []
    = (Raise (Exn IndexError "tuple index out of range"),
       MkRAG None [] [], empty_store).
Proof. repeat split. Qed.

Lemma build_propagates_failure_witness :
  @build_vector_store (Toy.backend Toy.up) (Toy.built Toy.up)
    (Toy.saved Toy.up) Toy.bad_corpus
  = (Raise (Exn RuntimeError "cannot embed an empty text"),
     MkRAG (Some (Toy.built_index Toy.up)) ["Contract Act"; ""]
           (map chunk_metadata Toy.bad_corpus),
     Toy.saved Toy.up).
Proof.
  apply (@build_propagates_failure (Toy.backend Toy.up) (Toy.built Toy.up)
           (Toy.saved Toy.up) Toy.bad_corpus).
  left. reflexivity.
Defined.

Lemma save_load_roundtrip_witness :
  ∃ store' loaded,
    @save_vector_store (Toy.backend Toy.up) (Toy.built Toy.up) empty_store
    = (Ok (), store')
    ∧ load_vector_store init store' = (true, loaded)
    ∧ documents loaded = ["Contract Act"; "Penal Code"; "Old Act"]
    ∧ document_metadata loaded = map chunk_metadata Toy.corpus
    ∧ index loaded = Some (Toy.built_index Toy.up).
Proof.
  apply (@save_load_roundtrip (Toy.backend Toy.up) (Toy.built Toy.up)
           empty_store (Toy.built_index Toy.up)).
  reflexivity.
Defined.

(** The claim C8 fails: with the range given as a list, the acts of 1872
    and 1860 come back for the range 1890 to 1910. *)
Lemma year_range_list_counterexample :
  ∃ rs r,
    @search (Toy.backend Toy.up) (Toy.built Toy.up) "contract" 2
      (Some (Toy.year_list 1890 1910)) = Ok rs
    ∧ r ∈ rs
    ∧ result_metadata r !! "act_year" = Some (SStr "1872")
    ∧ ¬ year_within 1890 1910 (result_metadata r).
Proof.
  eexists _, _. split; [vm_compute; reflexivity|].
  split; [left|]. split; [reflexivity|].
  intros (s & year & Hs & Hint & Hrange).
  vm_compute in Hs. injection Hs as <-.
  vm_compute in Hint. injection Hint as <-. lia.
Qed.

Lemma year_range_tuple_bounds_digit_years_witness :
  ∃ rs,
    @search (Toy.backend Toy.up) (Toy.built Toy.up) "contract" 2
      (Some (Toy.year_tuple 1870 1880)) = Ok rs
    ∧ length rs = 1%nat
    ∧ ∀ r s, r ∈ rs →
        result_metadata r !! "act_year" = Some (SStr s) →
        PyStr.isdigit s = true →
        ∃ year, PyStr.int s = Ok year ∧ 1870 ≤ year ≤ 1880.
Proof.
  eexists. split; [vm_compute; reflexivity|]. split; [reflexivity|].
  apply (@year_range_tuple_bounds_digit_years (Toy.backend Toy.up)
           (Toy.built Toy.up) "contract" 2 (Toy.year_tuple 1870 1880)
           1870 1880);
    [left | vm_compute; reflexivity].
Defined.

Lemma toy_one_row_per_text (generate : string → result string) :
  @one_row_per_text (Toy.backend generate).
Proof.
  intros texts rows. simpl. unfold Toy.encode_texts.
  destruct (existsb _ _); [discriminate|]. intros [= <-]. apply length_map.
Qed.

Lemma stores_stay_aligned_witness :
  (∃ self' store' ix,
    @build_vector_store (Toy.backend Toy.up) init empty_store Toy.corpus
    = (Ok (), self', store')
    ∧ aligned self' ∧ store_aligned store'
    ∧ index self' = Some ix
    ∧ index_rows ix = [[12; 3]; [10; 1]; [7; 1]]
    ∧ documents self' = ["Contract Act"; "Penal Code"; "Old Act"]
    ∧ document_metadata self' = map chunk_metadata Toy.corpus)
  ∧ ((index (@run (Toy.backend Toy.up)
               [CallBuild Toy.corpus; CallSave; Restart; CallLoad]).1
      = None
      ∨ aligned (@run (Toy.backend Toy.up)
                   [CallBuild Toy.corpus; CallSave; Restart; CallLoad]).1)
     ∧ store_aligned (@run (Toy.backend Toy.up)
                        [CallBuild Toy.corpus; CallSave; Restart;
                         CallLoad]).2).
Proof.
  split.
  - apply (proj1 (@stores_stay_aligned (Toy.backend Toy.up)) init empty_store
             Toy.corpus [[12; 3]; [10; 1]; [7; 1]]);
      [reflexivity | reflexivity | discriminate].
  - destruct (proj2 (proj2 (proj2 (proj2
                (@stores_stay_aligned (Toy.backend Toy.up)))))
                [CallBuild Toy.corpus; CallSave; Restart; CallLoad])
      as (Hself & Hstore & _).
    + apply toy_one_row_per_text.
    + repeat constructor. by exists [12; 3], [[10; 1]; [7; 1]].
    + by split.
Defined.

(** After a build that raised, the index has three rows and the contents
    and the metadata have two entries; a save and a load that returns
    [True] hand this state to a new process, where a search for three
    results raises. *)
Lemma failed_build_breaks_alignment :
  @build_vector_store (Toy.backend Toy.up) (Toy.built Toy.up)
    (Toy.saved Toy.up) Toy.bad_corpus
  = (Raise (Exn RuntimeError "cannot embed an empty text"), Toy.broken,
     Toy.saved Toy.up)
  ∧ (ntotal <$> index Toy.broken, length (documents Toy.broken),
     length (document_metadata Toy.broken)) = (Some 3%nat, 2%nat, 2%nat)
  ∧ ¬ aligned Toy.broken
  ∧ index_rows (Toy.built_index Toy.up) !! 1%nat
    = Some (Toy.embed_text "Penal Code")
  ∧ documents Toy.broken !! 1%nat = Some ""
  ∧ load_vector_store init
      (save_vector_store Toy.broken (Toy.saved Toy.up)).2
    = (true, Toy.broken)
  ∧ search Toy.broken "contract" 3 None
    = Raise (Exn IndexError "list index out of range").
Proof.
  split; [by_evaluation|]. split; [by_evaluation|].
  split; [|repeat split; by_evaluation].
  intros (ix & Hix & Hn & _). injection Hix as <-. discriminate Hn.
Qed.

(** * Further properties of the engine *)

(** ** The four branches of the filter *)

Lemma _apply_filters_all (m : metadata) (items : filter_items) :
  (∀ key value, (key, value) ∈ items → apply_filter m key value = Ok true) →
  _apply_filters m items = Ok true.
Proof.
  induction items as [|[key value] items IH]; intros Hall; [done|].
  simpl. rewrite (Hall key value); [|left]. simpl.
  apply IH. intros k v Hin. apply Hall. by right.
Qed.

Lemma apply_filter_unrecognised (m : metadata) (key : string) (value : fvalue) :
  recognised (key, value) = false → apply_filter m key value = Ok true.
Proof.
  unfold recognised, apply_filter. simpl.
  destruct value as [[| b | z | s] | l | t]; simpl;
    destruct (String.eqb key "year_range"), (String.eqb key "is_repealed"),
      (String.eqb key "language"), (String.eqb key "keywords");
    simpl; intros Hrec; (discriminate Hrec || reflexivity).
Qed.

(** X1.  Items that no branch reads constrain nothing: a filter made of
    unknown keys, or of known keys whose value has another type than the
    branch tests for, accepts every record; the empty filter is one. *)
Theorem unrecognised_items_pass (m : metadata) (items : filter_items) :
  forallb (λ item, negb (recognised item)) items = true →
  _apply_filters m items = Ok true.
Proof.
  intros Hitems. apply _apply_filters_all. intros key value Hin.
  apply apply_filter_unrecognised.
  rewrite forallb_forall in Hitems.
  apply list_elem_of_In, Hitems in Hin. by apply negb_true_iff in Hin.
Qed.

Lemma unrecognised_items_pass_witness :
  _apply_filters (Toy.act "Old Act" "1900" true)
    [("mode", FScalar (SStr "lawyer")); ("top_k", FScalar (SInt 5));
     ("year_range", FList [SInt 2000; SInt 2010]);
     ("is_repealed", FScalar (SInt 0)); ("language", FScalar SNone);
     ("keywords", FTuple [SStr "tax"])]
  = Ok true.
Proof. apply unrecognised_items_pass. reflexivity. Defined.

(** X6.  A record that a filter accepts is accepted by every filter made
    of items of that filter, in any order: dropping a key never rejects a
    record that passed before. *)
Theorem fewer_items_accept_more (m : metadata) (items items' : filter_items) :
  items' ⊆ items →
  _apply_filters m items = Ok true →
  _apply_filters m items' = Ok true.
Proof.
  intros Hsub Hpass. apply _apply_filters_all. intros key value Hin.
  apply (_apply_filters_items m items Hpass). by apply Hsub.
Qed.

Lemma fewer_items_accept_more_witness :
  _apply_filters (Toy.act "Contract Act" "1872" false)
    [("keywords", FList [SStr "CONTRACT"]);
     ("year_range", FTuple [SInt 1870; SInt 1880])]
  = Ok true.
Proof.
  apply (fewer_items_accept_more (Toy.act "Contract Act" "1872" false)
           [("year_range", FTuple [SInt 1870; SInt 1880]);
            ("is_repealed", FScalar (SBool false));
            ("keywords", FList [SStr "CONTRACT"])]).
  - intros item. rewrite !elem_of_cons, !elem_of_nil.
    intros [->|[->|[]]]; auto.
  - reflexivity.
Defined.

Lemma any_keyword_true (content_lower : string) (keywords : list scalar) :
  any_keyword content_lower keywords = Ok true →
  ∃ kw, SStr kw ∈ keywords
        ∧ PyStr.contains (PyStr.lower kw) content_lower = true.
Proof.
  induction keywords as [|v keywords IH]; intros Hany; [discriminate|].
  simpl in Hany. inv_bind Hany.
  destruct v as [| | |kw]; try discriminate. injection Ha as <-.
  destruct (PyStr.contains (PyStr.lower kw) content_lower) eqn:Hin.
  - exists kw. split; [left | done].
  - destruct (IH Hany) as (kw' & Hkw' & Hc). exists kw'. split; [by right|done].
Qed.

Lemma any_keyword_strings (content_lower : string) (keywords : list string) :
  any_keyword content_lower (SStr <$> keywords)
  = Ok (existsb (λ kw, PyStr.contains (PyStr.lower kw) content_lower) keywords).
Proof.
  induction keywords as [|kw keywords IH]; [done|].
  simpl. by destruct (PyStr.contains _ _).
Qed.

(** X7.  On a record whose title is a string (or missing, which counts as
    the empty title) the keyword item accepts exactly when one of the
    keywords, in lower case, occurs in the title in lower case: the
    keywords are alternatives, and only the title is looked at. *)
Theorem keywords_are_alternatives (m : metadata) (title : string)
    (keywords : list string) :
  Py.get m "act_title" (SStr "") = SStr title →
  _apply_filters m [("keywords", FList (SStr <$> keywords))]
  = Ok (existsb (keyword_in_title title) keywords).
Proof.
  intros Htitle. simpl. unfold apply_filter. simpl. rewrite Htitle. simpl.
  rewrite any_keyword_strings. unfold keyword_in_title.
  by destruct (existsb _ _).
Qed.

Lemma keywords_are_alternatives_witness :
  _apply_filters (Toy.act "Penal Code" "1860" false)
    [("keywords", FList (SStr <$> ["contract"; "PENAL"]))]
  = Ok (existsb (keyword_in_title "Penal Code") ["contract"; "PENAL"])
  ∧ existsb (keyword_in_title "Penal Code") ["contract"; "PENAL"] = true.
Proof.
  split; [|reflexivity].
  apply (keywords_are_alternatives (Toy.act "Penal Code" "1860" false)).
  reflexivity.
Defined.

(** ** What a filter guarantees about the results of [search] *)

Section FilteredSearch.

Context `{Backend}.

(** Every result got through every item of the filter. *)
Lemma search_result_passes_item (self : LegalRAGSystem) (query : string)
    (top_k : Z) (items : filter_items) (rs : list SearchResult)
    (r : SearchResult) (key : string) (value : fvalue) :
  search self query top_k (Some items) = Ok rs → r ∈ rs →
  (key, value) ∈ items →
  apply_filter (result_metadata r) key value = Ok true.
Proof.
  intros Hs Hr Hitem.
  destruct (search_elem _ _ _ _ _ _ Hs Hr)
    as (ix & candidates & [sc idx] & _ & _ & _ & Hc).
  apply candidate_Some in Hc as (_ & _ & _ & _ & Hpass).
  assert (filters_given (Some items) = true) as Hgiven.
  { destruct items; [by apply elem_of_nil in Hitem | reflexivity]. }
  specialize (Hpass Hgiven). simpl in Hpass.
  by apply (_apply_filters_items _ _ Hpass).
Qed.

(** X2.  Under a filter with [is_repealed = b], every result has a repeal
    flag equal to [b], a record without the flag counting as not
    repealed. *)
Theorem search_respects_is_repealed (self : LegalRAGSystem) (query : string)
    (top_k : Z) (items : filter_items) (b : bool) (rs : list SearchResult) :
  ("is_repealed", FScalar (SBool b)) ∈ items →
  search self query top_k (Some items) = Ok rs →
  ∀ r, r ∈ rs →
    Py.eq_bool (Py.get (result_metadata r) "is_repealed" (SBool false)) b
    = true.
Proof.
  intros Hitem Hs r Hr.
  pose proof (search_result_passes_item _ _ _ _ _ _ _ _ Hs Hr Hitem) as Hp.
  unfold apply_filter in Hp. simpl in Hp.
  by destruct (Py.eq_bool _ _).
Qed.

(** X3.  Under a filter with [language = s], every result has exactly [s]
    as its detected language; a record without one has the empty
    language. *)
Theorem search_respects_language (self : LegalRAGSystem) (query : string)
    (top_k : Z) (items : filter_items) (s : string) (rs : list SearchResult) :
  ("language", FScalar (SStr s)) ∈ items →
  search self query top_k (Some items) = Ok rs →
  ∀ r, r ∈ rs →
    Py.get (result_metadata r) "language_detected" (SStr "") = SStr s.
Proof.
  intros Hitem Hs r Hr.
  pose proof (search_result_passes_item _ _ _ _ _ _ _ _ Hs Hr Hitem) as Hp.
  unfold apply_filter in Hp.
  remember (Py.get (result_metadata r) "language_detected" (SStr "")) as v.
  simpl in Hp. destruct v as [| | |s']; simpl in Hp; try discriminate.
  destruct (String.eqb_spec s' s) as [->|]; [done|discriminate].
Qed.

Lemma apply_filter_keywords (m : metadata) (keywords : list scalar) :
  apply_filter m "keywords" (FList keywords) = Ok true →
  ∃ title kw,
    Py.get m "act_title" (SStr "") = SStr title
    ∧ SStr kw ∈ keywords ∧ keyword_in_title title kw = true.
Proof.
  unfold apply_filter.
  remember (Py.get m "act_title" (SStr "")) as v.
  simpl. intros Hp. inv_bind Hp. inv_bind Hp.
  destruct a0; [|discriminate].
  destruct v as [| | |title]; try discriminate.
  injection Ha as <-.
  destruct (any_keyword_true _ _ Ha0) as (kw & Hkw & Hin).
  by exists title, kw.
Qed.

(** X4.  Under a filter with keywords, every result has a title in which
    one of the keywords occurs, case apart. *)
Theorem search_respects_keywords (self : LegalRAGSystem) (query : string)
    (top_k : Z) (items : filter_items) (keywords : list scalar)
    (rs : list SearchResult) :
  ("keywords", FList keywords) ∈ items →
  search self query top_k (Some items) = Ok rs →
  ∀ r, r ∈ rs →
    ∃ title kw,
      Py.get (result_metadata r) "act_title" (SStr "") = SStr title
      ∧ SStr kw ∈ keywords ∧ keyword_in_title title kw = true.
Proof.
  intros Hitem Hs r Hr. apply apply_filter_keywords.
  by apply (search_result_passes_item _ _ _ _ _ _ _ _ Hs Hr Hitem).
Qed.

(** X5.  An empty list of keywords rejects every record: whatever else
    the filter holds, a [search] that returns then returns no result. *)
Theorem search_with_no_keywords_is_empty (self : LegalRAGSystem)
    (query : string) (top_k : Z) (items : filter_items)
    (rs : list SearchResult) :
  ("keywords", FList []) ∈ items →
  search self query top_k (Some items) = Ok rs →
  rs = [].
Proof.
  intros Hitem Hs. destruct rs as [|r rs]; [done|].
  assert (r ∈ r :: rs) as Hr by left.
  pose proof (search_result_passes_item _ _ _ _ _ _ _ _ Hs Hr Hitem) as Hp.
  apply apply_filter_keywords in Hp as (title & kw & _ & Hkw & _).
  by apply elem_of_nil in Hkw.
Qed.

End FilteredSearch.

Lemma search_respects_is_repealed_witness :
  @search (Toy.backend Toy.up) (Toy.built Toy.up) "contract" 2
    Toy.active_only = Ok [Toy.contract_hit; Toy.penal_hit]
  ∧ ∀ r, r ∈ [Toy.contract_hit; Toy.penal_hit] →
      Py.eq_bool (Py.get (result_metadata r) "is_repealed" (SBool false))
        false = true.
Proof.
  split; [by_evaluation|].
  apply (@search_respects_is_repealed (Toy.backend Toy.up)
           (Toy.built Toy.up) "contract" 2
           [("is_repealed", FScalar (SBool false))] false);
    [left | by_evaluation].
Defined.

(** The records of the scenario carry no language: only the empty language
    finds them. *)
Lemma search_respects_language_witness :
  @search (Toy.backend Toy.up) (Toy.built Toy.up) "contract" 1
    (Some [("language", FScalar (SStr ""))]) = Ok [Toy.contract_hit]
  ∧ @search (Toy.backend Toy.up) (Toy.built Toy.up) "contract" 1
      (Some [("language", FScalar (SStr "english"))]) = Ok []
  ∧ ∀ r, r ∈ [Toy.contract_hit] →
      Py.get (result_metadata r) "language_detected" (SStr "") = SStr "".
Proof.
  split; [by_evaluation|]. split; [by_evaluation|].
  apply (@search_respects_language (Toy.backend Toy.up)
           (Toy.built Toy.up) "contract" 1
           [("language", FScalar (SStr ""))] "");
    [left | by_evaluation].
Defined.

Lemma search_respects_keywords_witness :
  @search (Toy.backend Toy.up) (Toy.built Toy.up) "contract" 2
    (Some [("keywords", FList [SStr "CODE"; SStr "old"])])
  = Ok [Toy.penal_hit; Toy.old_hit]
  ∧ ∀ r, r ∈ [Toy.penal_hit; Toy.old_hit] →
      ∃ title kw,
        Py.get (result_metadata r) "act_title" (SStr "") = SStr title
        ∧ SStr kw ∈ [SStr "CODE"; SStr "old"]
        ∧ keyword_in_title title kw = true.
Proof.
  split; [by_evaluation|].
  apply (@search_respects_keywords (Toy.backend Toy.up)
           (Toy.built Toy.up) "contract" 2
           [("keywords", FList [SStr "CODE"; SStr "old"])]);
    [left | by_evaluation].
Defined.

Lemma search_with_no_keywords_is_empty_witness :
  ∃ rs,
    @search (Toy.backend Toy.up) (Toy.built Toy.up) "contract" 2
      (Some [("keywords", FList [])]) = Ok rs
    ∧ rs = [].
Proof.
  exists []. split; [by_evaluation|].
  apply (@search_with_no_keywords_is_empty (Toy.backend Toy.up)
           (Toy.built Toy.up) "contract" 2 [("keywords", FList [])]);
    [left | by_evaluation].
Defined.

(** ** Searching without an index, and without a filter *)

Section PlainSearch.

Context `{Backend}.

(** X8.  The first run: from a directory without [index.faiss] the load
    returns [False] and changes nothing, and a system that has no index
    then answers every [search] and every [get_chat_response] with the
    [ValueError] of [search], before the embedding model or the generation
    model is asked anything. *)
Theorem first_run_search_raises (self : LegalRAGSystem)
    (store : vector_store) :
  index_faiss store = None →
  index self = None →
  load_vector_store self store = (false, self)
  ∧ ∀ query mode filters history top_k,
      search (load_vector_store self store).2 query top_k filters
      = Raise (Exn ValueError "Vector store not built or loaded")
      ∧ get_chat_response (load_vector_store self store).2 query mode
          filters history top_k
        = Raise (Exn ValueError "Vector store not built or loaded").
Proof.
  intros Hfile Hix.
  assert (load_vector_store self store = (false, self)) as Hload.
  { unfold load_vector_store. by rewrite Hfile. }
  split; [exact Hload|]. intros query mode filters history top_k.
  rewrite Hload. unfold get_chat_response, search. simpl. by rewrite Hix.
Qed.

Lemma candidate_unfiltered (self : LegalRAGSystem) filters (n : nat)
    (s : Score) (idx : Z) :
  filters_given filters = false →
  length (documents self) = n → length (document_metadata self) = n →
  idx ≠ -1 → 0 ≤ idx < Z.of_nat n →
  ∃ r, candidate self filters (s, idx) = Ok (Some r) ∧ score r = s.
Proof.
  intros Hgiven Hdocs Hmds Hidx Hrange. unfold candidate.
  apply Z.eqb_neq in Hidx. rewrite Hidx, Hgiven.
  destruct (getitem_in_range (document_metadata self) idx) as [m ->]; [lia|].
  destruct (getitem_in_range (documents self) idx) as [d ->]; [lia|].
  simpl. eexists. split; reflexivity.
Qed.

Lemma passed_unfiltered (self : LegalRAGSystem) filters (n : nat)
    (candidates : list (Score * Z)) :
  filters_given filters = false →
  length (documents self) = n → length (document_metadata self) = n →
  valid_ids n candidates = true →
  score <$> passed self filters candidates = fst <$> matches candidates.
Proof.
  intros Hgiven Hdocs Hmds.
  induction candidates as [|[s idx] candidates IH]; intros Hids; [done|].
  simpl in Hids. apply andb_prop in Hids as [Hid Hrest].
  rewrite passed_cons. unfold matches.
  destruct (decide (idx = -1)) as [->|Hne].
  - rewrite filter_cons_False; [|simpl; lia].
    assert (candidate self filters (s, -1) = Ok None) as -> by reflexivity.
    by apply IH.
  - rewrite filter_cons_True; [|done].
    apply Z.eqb_neq in Hne as Hne'. rewrite Hne' in Hid. simpl in Hid.
    apply andb_prop in Hid as [H0 Hn].
    apply Z.leb_le in H0. apply Z.ltb_lt in Hn.
    destruct (candidate_unfiltered self filters n s idx) as (r & -> & Hs);
      try done.
    rewrite !fmap_cons, Hs. simpl. f_equal. by apply IH.
Qed.

Lemma search_empty_dict (self : LegalRAGSystem) (query : string) (top_k : Z) :
  search self query top_k (Some []) = search self query top_k None.
Proof.
  unfold search. destruct (index self) as [ix|]; [|done].
  destruct (neighbours ix query top_k) as [candidates|e]; [|done]. simpl.
  generalize (@nil SearchResult).
  induction candidates as [|[s idx] candidates IH]; intros results; [done|].
  simpl. destruct (idx =? -1); simpl; [apply IH|].
  destruct (Py.getitem (document_metadata self) idx) as [m|e]; [|done]. simpl.
  destruct (Py.getitem (documents self) idx) as [d|e]; [|done]. simpl.
  destruct (_ >=? _); [done | apply IH].
Qed.

(** X9.  Without a filter, be it [None] or the empty [dict], no record is
    looked at: on an index aligned with the contents and the metadata,
    [search] returns the first [top_k] matches that the index hands over,
    with their scores, so as many results as there are matches, up to
    [top_k]. *)
Theorem search_without_filter (self : LegalRAGSystem) (ix : IndexFlatIP)
    (query : string) (top_k : Z) (candidates : list (Score * Z)) :
  0 < top_k →
  index self = Some ix →
  length (documents self) = ntotal ix →
  length (document_metadata self) = ntotal ix →
  neighbours ix query top_k = Ok candidates →
  valid_ids (ntotal ix) candidates = true →
  ∃ rs,
    search self query top_k None = Ok rs
    ∧ search self query top_k (Some []) = Ok rs
    ∧ score <$> rs = take (Z.to_nat top_k) (fst <$> matches candidates)
    ∧ length rs = (Z.to_nat top_k `min` length (matches candidates))%nat.
Proof.
  intros Hk Hix Hdocs Hmds Hn Hids.
  assert (is_Ok (search self query top_k None)) as [rs Hs].
  { unfold search. rewrite Hix, Hn. simpl.
    apply search_loop_total, Forall_forall. intros [s idx] Hc.
    unfold valid_ids in Hids. rewrite forallb_forall in Hids.
    apply list_elem_of_In, Hids in Hc. simpl in Hc.
    destruct (decide (idx = -1)) as [->|Hne]; [apply is_Ok_Ok|].
    apply Z.eqb_neq in Hne as Hne'. rewrite Hne' in Hc. simpl in Hc.
    apply andb_prop in Hc as [H0 Hlt].
    apply Z.leb_le in H0. apply Z.ltb_lt in Hlt.
    destruct (candidate_unfiltered self None (ntotal ix) s idx)
      as (r & -> & _); try done. apply is_Ok_Ok. }
  exists rs. split; [exact Hs|].
  split; [by rewrite search_empty_dict|].
  apply search_take in Hs as (ix' & candidates' & Hix' & Hn' & ->); [|done].
  rewrite Hix in Hix'. injection Hix' as <-.
  rewrite Hn in Hn'. injection Hn' as <-.
  assert (score <$> passed self None candidates = fst <$> matches candidates)
    as Hscores by by apply (passed_unfiltered self None (ntotal ix)).
  split.
  - by rewrite fmap_take, Hscores.
  - rewrite length_take.
    rewrite <- (length_fmap score (passed self None candidates)), Hscores.
    by rewrite length_fmap.
Qed.

Lemma candidate_fields (self : LegalRAGSystem) filters (s : Score) (idx : Z)
    (r : SearchResult) :
  candidate self filters (s, idx) = Ok (Some r) →
  chunk_id r
  = Py.get (result_metadata r) "chunk_id" (SStr ("chunk_" +:+ pretty idx))
  ∧ chunk_type r = Py.get (result_metadata r) "chunk_type" (SStr "unknown").
Proof.
  unfold candidate. intros Hc.
  destruct (idx =? -1); [discriminate|].
  inv_bind Hc. inv_bind Hc. destruct a0; [|discriminate].
  inv_bind Hc. by injection Hc as <-.
Qed.

Lemma getitem_elem_of {A} (l : list A) (i : Z) (a : A) :
  Py.getitem l i = Ok a → a ∈ l.
Proof.
  unfold Py.getitem. destruct (_ && _); [|discriminate].
  destruct (l !! _) as [a'|] eqn:Hl; [|discriminate].
  intros [= ->]. by eapply list_elem_of_lookup_2.
Qed.

(** X10.  The identity of a chunk does not reach the results.  The engine
    keeps the content and the metadata of a chunk only, so when the
    metadata records hold no [chunk_id] and no [chunk_type], every result
    has the type [unknown] and, as its id, [chunk_] followed by the
    position that the index gave, which is the position of its content. *)
Theorem results_lose_chunk_identity (self : LegalRAGSystem)
    (query : string) (top_k : Z) (filters : option filter_items)
    (rs : list SearchResult) :
  (∀ m, m ∈ document_metadata self →
        m !! "chunk_id" = None ∧ m !! "chunk_type" = None) →
  search self query top_k filters = Ok rs →
  ∀ r, r ∈ rs →
    chunk_type r = SStr "unknown"
    ∧ ∃ idx, chunk_id r = SStr ("chunk_" +:+ pretty idx)
             ∧ Py.getitem (documents self) idx = Ok (content r).
Proof.
  intros Hkeys Hs r Hr.
  destruct (search_elem _ _ _ _ _ _ Hs Hr)
    as (ix & candidates & [s idx] & _ & _ & _ & Hc).
  destruct (candidate_fields _ _ _ _ _ Hc) as [Hid Htype].
  apply candidate_Some in Hc as (_ & Hmd & Hdoc & _ & _).
  destruct (Hkeys (result_metadata r)) as [Hk1 Hk2];
    [by eapply getitem_elem_of|].
  unfold Py.get in Hid, Htype. rewrite Hk1 in Hid. rewrite Hk2 in Htype.
  split; [exact Htype|]. by exists idx.
Qed.

End PlainSearch.

Lemma first_run_search_raises_witness :
  @load_vector_store (Toy.backend Toy.up) init empty_store = (false, init)
  ∧ ∀ query mode filters history top_k,
      @search (Toy.backend Toy.up)
        (@load_vector_store (Toy.backend Toy.up) init empty_store).2
        query top_k filters
      = Raise (Exn ValueError "Vector store not built or loaded")
      ∧ @get_chat_response (Toy.backend Toy.up)
          (@load_vector_store (Toy.backend Toy.up) init empty_store).2
          query mode filters history top_k
        = Raise (Exn ValueError "Vector store not built or loaded").
Proof.
  apply (@first_run_search_raises (Toy.backend Toy.up) init empty_store);
    reflexivity.
Defined.

(** Three matches and [top_k = 2] give the two best. *)
Lemma search_without_filter_witness :
  ∃ rs,
    @search (Toy.backend Toy.up) (Toy.built Toy.up) "contract" 2 None = Ok rs
    ∧ @search (Toy.backend Toy.up) (Toy.built Toy.up) "contract" 2 (Some [])
      = Ok rs
    ∧ @score (Toy.backend Toy.up) <$> rs
      = take (Z.to_nat 2) (fst <$> matches Toy.candidates)
    ∧ length rs = (Z.to_nat 2 `min` length (matches Toy.candidates))%nat.
Proof.
  apply (@search_without_filter (Toy.backend Toy.up) (Toy.built Toy.up)
           (Toy.built_index Toy.up) "contract" 2 Toy.candidates);
    [lia | by_evaluation..].
Defined.

(** The chunks of the scenario have the ids [1_overview], [2_overview] and
    [3_overview] and the type [overview]; the results do not. *)
Lemma results_lose_chunk_identity_witness :
  @search (Toy.backend Toy.up) (Toy.built Toy.up) "contract" 2 None
  = Ok [Toy.contract_hit; Toy.penal_hit]
  ∧ ∀ r, r ∈ [Toy.contract_hit; Toy.penal_hit] →
      chunk_type r = SStr "unknown"
      ∧ ∃ idx, chunk_id r = SStr ("chunk_" +:+ pretty idx)
               ∧ Py.getitem (documents (Toy.built Toy.up)) idx
                 = Ok (content r).
Proof.
  split; [by_evaluation|].
  apply (@results_lose_chunk_identity (Toy.backend Toy.up)
           (Toy.built Toy.up) "contract" 2 None); [|by_evaluation].
  assert (document_metadata (Toy.built Toy.up)
          = chunk_metadata <$> Toy.corpus) as -> by by_evaluation.
  intros m Hm.
  repeat (apply elem_of_cons in Hm as [->|Hm]; [split; by_evaluation|]).
  by apply elem_of_nil in Hm.
Defined.

(** * Further properties of the store, the prompt and the processor *)

(** ** Loading and building *)

Section StoreMore.

Context `{Backend}.

(** X12.  A load that finds [index.faiss] but not both lists returns
    [False] and yet has replaced the index, and the contents too when
    [documents.pkl] was there: the system is left with the index of the
    directory beside contents or metadata it had before. *)
Theorem failed_load_keeps_what_it_read (self : LegalRAGSystem)
    (store : vector_store) (ix : IndexFlatIP) :
  index_faiss store = Some ix →
  documents_pkl store = None ∨ metadata_pkl store = None →
  load_vector_store self store
  = (false,
     MkRAG (Some ix) (default (documents self) (documents_pkl store))
           (document_metadata self)).
Proof.
  intros Hix Hmissing. unfold load_vector_store. rewrite Hix.
  destruct (documents_pkl store) as [docs|]; simpl.
  - destruct Hmissing as [? | ->]; [discriminate|]. reflexivity.
  - reflexivity.
Qed.

(** X13.  A build for which the encoder gives rows leaves attributes and
    files that depend on the chunks alone: whatever the system held and
    whatever the directory contained is replaced, nothing is merged. *)
Theorem build_replaces_everything (self : LegalRAGSystem)
    (store : vector_store) (docs : list chunk) (rows : list Vec) :
  encode (map chunk_content docs) = Ok rows → rows ≠ [] →
  build_vector_store self store docs
  = build_vector_store init empty_store docs.
Proof.
  intros Henc Hrows. destruct rows as [|row rows]; [done|].
  by rewrite !(build_returns _ _ docs row rows Henc).
Qed.

(** X14.  After a build that returned, a new process that loads from the
    directory holds the same index, contents and metadata as the process
    that built, and so answers every search in the same way. *)
Theorem load_after_build_restores (self self1 : LegalRAGSystem)
    (store store1 : vector_store) (docs : list chunk) :
  build_vector_store self store docs = (Ok (), self1, store1) →
  ∀ fresh,
    load_vector_store fresh store1 = (true, self1)
    ∧ ∀ query top_k filters,
        search (load_vector_store fresh store1).2 query top_k filters
        = search self1 query top_k filters.
Proof.
  intros Hb fresh.
  destruct (build_Ok _ _ _ _ _ Hb) as (row & rows & Henc).
  rewrite (build_returns self store docs row rows Henc) in Hb.
  injection Hb as <- <-.
  split; [apply load_complete|]. intros query top_k filters.
  by rewrite load_complete.
Qed.

End StoreMore.

Lemma failed_load_keeps_what_it_read_witness :
  @load_vector_store (Toy.backend Toy.up) init
    (MkStore (Some (Toy.built_index Toy.up))
       (Some ["Contract Act"; "Penal Code"; "Old Act"]) None)
  = (false,
     MkRAG (Some (Toy.built_index Toy.up))
       ["Contract Act"; "Penal Code"; "Old Act"] []).
Proof.
  apply (@failed_load_keeps_what_it_read (Toy.backend Toy.up) init
           (MkStore (Some (Toy.built_index Toy.up))
              (Some ["Contract Act"; "Penal Code"; "Old Act"]) None)
           (Toy.built_index Toy.up)).
  - reflexivity.
  - right. reflexivity.
Defined.

Lemma build_replaces_everything_witness :
  @build_vector_store (Toy.backend Toy.up) (Toy.built Toy.up)
    (Toy.saved Toy.up) [Chunk "Evidence Act" "overview" "4_overview"
                          (Toy.act "Evidence Act" "1872" false)]
  = @build_vector_store (Toy.backend Toy.up) init empty_store
      [Chunk "Evidence Act" "overview" "4_overview"
         (Toy.act "Evidence Act" "1872" false)].
Proof.
  apply (@build_replaces_everything (Toy.backend Toy.up) (Toy.built Toy.up)
           (Toy.saved Toy.up) _ [[12; 2]]); [by_evaluation | discriminate].
Defined.

Lemma load_after_build_restores_witness :
  @load_vector_store (Toy.backend Toy.up) init (Toy.saved Toy.up)
  = (true, Toy.built Toy.up)
  ∧ search (@load_vector_store (Toy.backend Toy.up) init
              (Toy.saved Toy.up)).2 "contract" 2 Toy.active_only
    = search (Toy.built Toy.up) "contract" 2 Toy.active_only.
Proof.
  destruct (@load_after_build_restores (Toy.backend Toy.up) init
              (Toy.built Toy.up) empty_store (Toy.saved Toy.up) Toy.corpus)
    with (fresh := @init (Toy.backend Toy.up)) as [Hload Hsearch];
    [by_evaluation|].
  split; [exact Hload | apply Hsearch].
Defined.

(** ** Strings, again *)

Lemma chars_app (a b : string) :
  PyStr.chars (a +:+ b) = PyStr.chars a ++ PyStr.chars b.
Proof. induction a as [|c a IH]; [done|]. simpl. by rewrite <- IH. Qed.

Lemma of_chars (s : string) : String.string_of_list_ascii (PyStr.chars s) = s.
Proof. apply String.string_of_list_ascii_of_string. Qed.

Lemma chars_of (cs : list ascii) :
  PyStr.chars (String.string_of_list_ascii cs) = cs.
Proof. apply String.list_ascii_of_string_of_list_ascii. Qed.

Lemma append_cancel_l (a b c : string) : a +:+ b = a +:+ c → b = c.
Proof. induction a as [|x a IH]; [done|]. simpl. intros [= Heq]. auto. Qed.

Lemma lstrip_spaces (ws cs : list ascii) :
  forallb PyStr.is_space_char ws = true →
  PyStr.lstrip_chars (ws ++ cs) = PyStr.lstrip_chars cs.
Proof.
  induction ws as [|w ws IH]; [done|]. simpl. intros Hws.
  apply andb_prop in Hws as [-> Hws]. by apply IH.
Qed.

Lemma lstrip_head (c : ascii) (cs : list ascii) :
  PyStr.is_space_char c = false → PyStr.lstrip_chars (c :: cs) = c :: cs.
Proof. intros Hc. simpl. by rewrite Hc. Qed.

(** Stripping text that is wrapped in blanks gives the text, when the text
    begins and ends with a character that is no blank. *)
Lemma strip_chars_wrapped (ws1 ws2 mid : list ascii) (c d : ascii) :
  forallb PyStr.is_space_char ws1 = true →
  forallb PyStr.is_space_char ws2 = true →
  PyStr.is_space_char c = false → PyStr.is_space_char d = false →
  PyStr.strip_chars (ws1 ++ ((c :: mid) ++ [d]) ++ ws2) = (c :: mid) ++ [d].
Proof.
  intros Hws1 Hws2 Hc Hd. unfold PyStr.strip_chars.
  rewrite (lstrip_spaces ws1 _ Hws1).
  assert (PyStr.lstrip_chars (((c :: mid) ++ [d]) ++ ws2)
          = ((c :: mid) ++ [d]) ++ ws2) as ->.
  { simpl. by rewrite Hc. }
  rewrite reverse_app, reverse_snoc, lstrip_spaces.
  - rewrite (lstrip_head d _ Hd), reverse_cons.
    by rewrite reverse_involutive.
  - rewrite forallb_forall in *. intros x Hx. apply Hws2.
    by apply list_elem_of_In, elem_of_reverse, list_elem_of_In.
Qed.

Lemma lstrip_no_lead (cs : list ascii) (c : ascii) (cs' : list ascii) :
  PyStr.lstrip_chars cs = c :: cs' → PyStr.is_space_char c = false.
Proof.
  induction cs as [|x cs IH]; [done|]. simpl.
  destruct (PyStr.is_space_char x) eqn:Hx; [done|]. by intros [= <- _].
Qed.

Lemma lstrip_suffix (cs : list ascii) : PyStr.lstrip_chars cs `suffix_of` cs.
Proof.
  induction cs as [|x cs IH]; [done|]. simpl.
  destruct (PyStr.is_space_char x); [by apply suffix_cons_r | done].
Qed.

Lemma strip_chars_trimmed (cs : list ascii) : trimmed (PyStr.strip_chars cs).
Proof.
  unfold PyStr.strip_chars. split.
  - intros c cs' Heq.
    pose proof (lstrip_suffix (reverse (PyStr.lstrip_chars cs))) as [k Hk].
    apply (f_equal reverse) in Hk.
    rewrite reverse_involutive, reverse_app, Heq in Hk.
    simpl in Hk. eapply lstrip_no_lead. exact Hk.
  - intros c cs' Heq. apply (f_equal reverse) in Heq.
    rewrite reverse_involutive, reverse_snoc in Heq.
    by eapply lstrip_no_lead.
Qed.

Lemma strip_chars_infix (cs : list ascii) :
  ∃ k1 k2, cs = k1 ++ PyStr.strip_chars cs ++ k2.
Proof.
  unfold PyStr.strip_chars.
  destruct (lstrip_suffix cs) as [k1 Hk1].
  destruct (lstrip_suffix (reverse (PyStr.lstrip_chars cs))) as [k2 Hk2].
  apply (f_equal reverse) in Hk2.
  rewrite reverse_involutive, reverse_app in Hk2.
  exists k1, (reverse k2). by rewrite <- Hk2.
Qed.

Lemma append_assoc (a b c : string) : (a +:+ b) +:+ c = a +:+ (b +:+ c).
Proof.
  induction a as [|x a IH]; [done|].
  change (String x ((a +:+ b) +:+ c) = String x (a +:+ (b +:+ c))).
  by rewrite IH.
Qed.

Lemma append_String (x : ascii) (a b : string) :
  String x a +:+ b = String x (a +:+ b).
Proof. reflexivity. Qed.

Lemma strip_wrapped (c d : ascii) (mid ws1 ws2 : string) :
  forallb PyStr.is_space_char (PyStr.chars ws1) = true →
  forallb PyStr.is_space_char (PyStr.chars ws2) = true →
  PyStr.is_space_char c = false → PyStr.is_space_char d = false →
  PyStr.strip (ws1 +:+ (String c mid +:+ String d "") +:+ ws2)
  = String c mid +:+ String d "".
Proof.
  intros Hws1 Hws2 Hc Hd. unfold PyStr.strip.
  rewrite !chars_app. simpl PyStr.chars at 2 4.
  change (PyStr.chars (String c mid)) with (c :: PyStr.chars mid).
  rewrite (strip_chars_wrapped _ _ (PyStr.chars mid) c d); try done.
  change (c :: PyStr.chars mid) with (PyStr.chars (String c mid)).
  change [d] with (PyStr.chars (String d "")).
  by rewrite <- chars_app, of_chars.
Qed.

Section PromptMore.

Context `{Backend}.

Lemma strip_context_part (i : Z) (doc : SearchResult) :
  PyStr.strip (context_part i doc) = context_block i doc.
Proof.
  set (nl := String (Ascii.ascii_of_nat 10) "").
  set (mid := "ocument " +:+ pretty i +:+ ":
Title: " +:+ Py.str (Py.get (result_metadata doc) "act_title" (SStr "N/A")) +:+ "
Year: " +:+ Py.str (Py.get (result_metadata doc) "act_year" (SStr "N/A")) +:+ "
Section: " +:+ Py.str (Py.get (result_metadata doc) "section_title" (SStr "Overview")) +:+ "
Status: " +:+ (if Py.truthy (Py.get (result_metadata doc) "is_repealed" (SBool false))
               then "Repealed" else "Active") +:+ "
Content: " +:+ PyStr.slice_to 500 (content doc) +:+ "..").
  assert (context_block i doc
          = String (Ascii.ascii_of_nat 68) mid
            +:+ String (Ascii.ascii_of_nat 46) "") as Hblock.
  { unfold context_block. rewrite (append_String _ mid). unfold mid.
    rewrite !append_assoc. reflexivity. }
  assert (context_part i doc
          = nl +:+ (String (Ascii.ascii_of_nat 68) mid
                    +:+ String (Ascii.ascii_of_nat 46) "")
            +:+ "
            ") as ->.
  { unfold context_part, nl.
    rewrite (append_String _ mid), (append_String _ (mid +:+ _)). unfold mid.
    rewrite !append_assoc. reflexivity. }
  rewrite Hblock. by apply strip_wrapped.
Qed.

End PromptMore.

Lemma chars_length (s : string) : length (PyStr.chars s) = String.length s.
Proof. induction s as [|c s IH]; [done|]. simpl. by rewrite IH. Qed.

Lemma slice_to_length (n : nat) (s : string) :
  String.length (PyStr.slice_to n s) = (n `min` String.length s)%nat.
Proof.
  unfold PyStr.slice_to.
  by rewrite <- chars_length, chars_of, length_take, chars_length.
Qed.

Lemma slice_to_short (n : nat) (s : string) :
  (String.length s ≤ n)%nat → PyStr.slice_to n s = s.
Proof.
  intros Hs. unfold PyStr.slice_to.
  rewrite take_ge; [apply of_chars|]. by rewrite chars_length.
Qed.

Section PromptMore2.

Context `{Backend}.

(** X15.  The context of a non-empty result list is one block per result,
    numbered from 1 and separated by an empty line; a block has neither
    the line break nor the indentation of the template around it, it holds
    the first 500 characters of the content at most, and it ends with
    three dots whether or not the content was cut. *)
Theorem context_is_blocks (documents : list SearchResult) :
  documents ≠ [] →
  _build_context documents
  = PyStr.join "

" (imap (λ i doc, context_block (Z.of_nat i + 1) doc) documents)
  ∧ ∀ doc, doc ∈ documents →
      String.length (PyStr.slice_to 500 (content doc))
      = (500 `min` String.length (content doc))%nat
      ∧ ((String.length (content doc) ≤ 500)%nat →
         PyStr.slice_to 500 (content doc) = content doc).
Proof.
  intros Hne. split.
  - destruct documents as [|doc documents]; [done|].
    unfold _build_context. f_equal. apply imap_ext.
    intros i d _. apply strip_context_part.
  - intros doc _. split; [apply slice_to_length | apply slice_to_short].
Qed.

Lemma prompt_is_base_and_instructions (mode query context : string)
    (history : option (list turn)) :
  _get_prompt_template mode query context history
  = base_context query context +:+ instructions_of mode.
Proof.
  unfold _get_prompt_template, instructions_of.
  by repeat destruct (String.eqb mode _).
Qed.

(** X16.  The five modes give five different prompts for the same query
    and context, and every prompt starts with the same preamble, which
    holds the context and the query as they are. *)
Theorem modes_render_differently (mode1 mode2 query context : string)
    (history : option (list turn)) :
  mode1 ∈ ["general"; "lawyer"; "argument"; "research"; "simple"] →
  mode2 ∈ ["general"; "lawyer"; "argument"; "research"; "simple"] →
  mode1 ≠ mode2 →
  _get_prompt_template mode1 query context history
  ≠ _get_prompt_template mode2 query context history
  ∧ ∃ rest, _get_prompt_template mode1 query context history
            = base_context query context +:+ rest.
Proof.
  intros H1 H2 Hne. split.
  - rewrite !prompt_is_base_and_instructions. intros Heq.
    apply append_cancel_l in Heq.
    rewrite !elem_of_cons, !elem_of_nil in H1, H2.
    destruct H1 as [->|[->|[->|[->|[->|[]]]]]];
      destruct H2 as [->|[->|[->|[->|[->|[]]]]]];
      first [done | vm_compute in Heq; discriminate Heq].
  - exists (instructions_of mode1). apply prompt_is_base_and_instructions.
Qed.

End PromptMore2.

Lemma context_is_blocks_witness :
  @_build_context (Toy.backend Toy.up) [Toy.contract_hit; Toy.penal_hit]
  = "Document 1:
Title: Contract Act
Year: 1872
Section: Overview
Status: Active
Content: Contract Act...

Document 2:
Title: Penal Code
Year: 1860
Section: Overview
Status: Active
Content: Penal Code...".
Proof.
  destruct (@context_is_blocks (Toy.backend Toy.up)
              [Toy.contract_hit; Toy.penal_hit]) as [-> _]; [done|].
  by_evaluation.
Defined.

Lemma modes_render_differently_witness :
  @_get_prompt_template (Toy.backend Toy.up) "lawyer" "What is theft?"
    "No relevant legal documents found." None
  ≠ @_get_prompt_template (Toy.backend Toy.up) "simple" "What is theft?"
      "No relevant legal documents found." None.
Proof.
  apply (@modes_render_differently (Toy.backend Toy.up) "lawyer" "simple").
  - apply (bool_decide_unpack _). reflexivity.
  - apply (bool_decide_unpack _). reflexivity.
  - discriminate.
Defined.

(** ** The filters of the document processor *)

Lemma filter_by_year_range_spec (docs : list chunk) (lo hi : Z)
    (kept : list chunk) :
  DataProcessor.filter_by_year_range docs lo hi = Ok kept →
  kept `sublist_of` docs
  ∧ ∀ doc, doc ∈ kept ↔ doc ∈ docs ∧ year_kept lo hi doc.
Proof.
  revert kept. induction docs as [|d docs IH]; intros kept Hf.
  - injection Hf as <-. split; [done|]. intros doc. split.
    + by intros ?%elem_of_nil.
    + by intros [?%elem_of_nil _].
  - simpl in Hf. inv_bind Hf. inv_bind Hf. inv_bind Hf. injection Hf as <-.
    destruct (IH _ Ha1) as [Hsub Hin]. clear IH.
    assert (a0 = true ↔ year_kept lo hi d) as Hkeep.
    { unfold year_kept, Py.get in *.
      destruct (chunk_metadata d !! "act_year") as [[| b | z | s]|] eqn:Hy;
        simpl in Ha.
      - injection Ha as <-. injection Ha0 as <-.
        split; [done | by intros (s & y & [=] & _)].
      - destruct b; [discriminate|]. injection Ha as <-. injection Ha0 as <-.
        split; [done | by intros (s & y & [=] & _)].
      - destruct (z =? 0); [|discriminate]. injection Ha as <-.
        injection Ha0 as <-. split; [done | by intros (s & y & [=] & _)].
      - destruct (String.eqb_spec s "") as [->|Hne]; simpl in Ha.
        + injection Ha as <-. injection Ha0 as <-.
          split; [done|]. by intros (s & y & [= <-] & Hd & _).
        + injection Ha as <-.
          destruct (PyStr.isdigit s) eqn:Hd.
          * inv_bind Ha0. injection Ha0 as <-. split.
            -- intros Hb. apply andb_prop in Hb as [H1 H2].
               apply Z.leb_le in H1. apply Z.leb_le in H2.
               exists s, a. by repeat split.
            -- intros (s' & y & [= <-] & _ & Hy' & H1 & H2).
               simpl in Ha. rewrite Hy' in Ha. injection Ha as <-.
               apply andb_true_intro. split; by apply Z.leb_le.
          * injection Ha0 as <-. split; [done|].
            intros (s' & y & [= <-] & Hd' & _). congruence.
      - injection Ha as <-. injection Ha0 as <-.
        split; [done | by intros (s & y & [=] & _)]. }
    destruct a0.
    + split; [by apply sublist_skip|]. intros doc.
      rewrite !elem_of_cons, Hin. split.
      * intros [->|[? ?]]; [split; [by left | by apply Hkeep] | auto].
      * intros [[->|?] ?]; auto.
    + split; [by apply sublist_cons|]. intros doc.
      rewrite elem_of_cons, Hin. split.
      * intros [? ?]; auto.
      * intros [[->|?] Hk]; [|auto]. apply Hkeep in Hk. discriminate.
Qed.

Lemma filter_by_year_range_reads (docs : list chunk) (lo hi : Z)
    (kept : list chunk) (doc : chunk) (s : string) :
  DataProcessor.filter_by_year_range docs lo hi = Ok kept →
  doc ∈ docs →
  chunk_metadata doc !! "act_year" = Some (SStr s) →
  PyStr.isdigit s = true →
  is_Ok (PyStr.int s).
Proof.
  revert kept. induction docs as [|d docs IH]; intros kept Hf Hin Hy Hd.
  - by apply elem_of_nil in Hin.
  - simpl in Hf. inv_bind Hf. inv_bind Hf. inv_bind Hf.
    apply elem_of_cons in Hin as [->|Hin]; [|by eapply IH].
    unfold Py.get in *. rewrite Hy in *. simpl in *.
    destruct (String.eqb_spec s "") as [->|_]; [discriminate|].
    simpl in Ha. rewrite Hd in Ha. injection Ha as <-.
    inv_bind Ha0. by exists a.
Qed.

(** X17.  The year filter of the document processor keeps, in their order,
    exactly the chunks whose year is a string of digits that [int] reads as
    a number between the two bounds: a chunk without a year, or with a year
    that is not made of digits, is dropped. *)
Theorem processor_year_filter_keeps_years_in_range (docs : list chunk)
    (lo hi : Z) (kept : list chunk) :
  DataProcessor.filter_by_year_range docs lo hi = Ok kept →
  kept `sublist_of` docs
  ∧ (∀ doc, doc ∈ kept ↔ doc ∈ docs ∧ year_kept lo hi doc)
  ∧ ∀ doc, doc ∈ kept → year_within lo hi (chunk_metadata doc).
Proof.
  intros Hf. destruct (filter_by_year_range_spec _ _ _ _ Hf) as [Hsub Hin].
  split; [exact Hsub|]. split; [exact Hin|].
  intros doc Hdoc. apply Hin in Hdoc as [_ (s & year & Hy & _ & Hint & Hr)].
  by exists s, year.
Qed.

(** X18.  The two year filters of the program agree on a chunk whose year
    is a string of digits, and disagree on every other year string: the
    processor drops the chunk, the engine lets it through. *)
Theorem year_filters_agree_on_digit_years (docs : list chunk) (lo hi : Z)
    (kept : list chunk) (doc : chunk) (s : string) :
  DataProcessor.filter_by_year_range docs lo hi = Ok kept →
  doc ∈ docs →
  chunk_metadata doc !! "act_year" = Some (SStr s) →
  (PyStr.isdigit s = true →
   ∃ pass, _apply_filters (chunk_metadata doc)
             [("year_range", FTuple [SInt lo; SInt hi])] = Ok pass
           ∧ (pass = true ↔ doc ∈ kept))
  ∧ (PyStr.isdigit s = false →
     _apply_filters (chunk_metadata doc)
       [("year_range", FTuple [SInt lo; SInt hi])] = Ok true
     ∧ doc ∉ kept).
Proof.
  intros Hf Hin Hy.
  destruct (filter_by_year_range_spec _ _ _ _ Hf) as [_ Hkept]. split.
  - intros Hd.
    destruct (filter_by_year_range_reads _ _ _ _ _ _ Hf Hin Hy Hd)
      as [year Hint].
    exists ((lo <=? year) && (year <=? hi)). split.
    + simpl. unfold apply_filter. simpl. unfold Py.get. rewrite Hy. simpl.
      destruct (String.eqb_spec s "") as [->|_]; [discriminate|].
      simpl. rewrite Hd. simpl. rewrite Hint. simpl.
      rewrite in_range_ints. simpl. by destruct (_ && _).
    + rewrite Hkept. split.
      * intros Hb. apply andb_prop in Hb as [H1 H2].
        apply Z.leb_le in H1. apply Z.leb_le in H2.
        split; [done|]. by exists s, year.
      * intros [_ (s' & year' & Hy' & _ & Hint' & H1 & H2)].
        rewrite Hy in Hy'. injection Hy' as <-.
        rewrite Hint in Hint'. injection Hint' as <-.
        apply andb_true_intro. split; by apply Z.leb_le.
  - intros Hd. split; [by apply (year_range_fails_open _ s)|].
    rewrite Hkept. intros [_ (s' & year' & Hy' & Hd' & _)].
    rewrite Hy in Hy'. injection Hy' as <-. congruence.
Qed.

(** X19.  On a corpus whose records are typed as the processor writes
    them, the year filter returns. *)
Theorem processor_year_filter_returns (docs : list chunk) (lo hi : Z) :
  forallb (λ doc, well_typed_metadata (chunk_metadata doc)) docs = true →
  is_Ok (DataProcessor.filter_by_year_range docs lo hi).
Proof.
  induction docs as [|d docs IH]; intros Ht; [apply is_Ok_Ok|].
  simpl in Ht. apply andb_prop in Ht as [Hd Ht].
  destruct (IH Ht) as [kept Hkept]. simpl. rewrite Hkept.
  unfold well_typed_metadata in Hd. apply andb_prop in Hd as [Hd _].
  unfold Py.get.
  destruct (chunk_metadata d !! "act_year") as [[| b | z | s]|];
    try discriminate; simpl; [|apply is_Ok_Ok].
  destruct (String.eqb s ""); simpl; [apply is_Ok_Ok|].
  destruct (PyStr.isdigit s) eqn:Hdig; simpl in *; [|apply is_Ok_Ok].
  rewrite (int_decimal s Hdig Hd). apply is_Ok_Ok.
Qed.

Lemma lower_all_strings (keywords : list scalar) (keywords_lower : list string) :
  DataProcessor.lower_all keywords = Ok keywords_lower →
  ∃ kws, keywords = SStr <$> kws ∧ keywords_lower = PyStr.lower <$> kws.
Proof.
  revert keywords_lower.
  induction keywords as [|v keywords IH]; intros kls Hl.
  - injection Hl as <-. by exists [].
  - simpl in Hl. inv_bind Hl. inv_bind Hl. injection Hl as <-.
    destruct v as [| | |kw]; try discriminate. injection Ha as <-.
    destruct (IH _ Ha0) as (kws & -> & ->). by exists (kw :: kws).
Qed.

Lemma any_in_true (content_lower title_lower : string) (kws : list string) :
  DataProcessor.any_in content_lower title_lower (PyStr.lower <$> kws) = true
  ↔ ∃ kw, kw ∈ kws
          ∧ (PyStr.contains (PyStr.lower kw) content_lower
             || PyStr.contains (PyStr.lower kw) title_lower) = true.
Proof.
  unfold DataProcessor.any_in. rewrite existsb_exists. split.
  - intros (kl & Hin & Hc).
    apply list_elem_of_In, list_elem_of_fmap in Hin as (kw & -> & Hkw).
    by exists kw.
  - intros (kw & Hkw & Hc). exists (PyStr.lower kw). split; [|done].
    apply list_elem_of_In, list_elem_of_fmap. by exists kw.
Qed.

Lemma keep_by_keywords_spec (docs : list chunk) (kws : list string)
    (kept : list chunk) :
  DataProcessor.keep_by_keywords docs (PyStr.lower <$> kws) = Ok kept →
  kept `sublist_of` docs
  ∧ ∀ doc, doc ∈ kept ↔ doc ∈ docs ∧ keyword_kept (SStr <$> kws) doc.
Proof.
  revert kept. induction docs as [|d docs IH]; intros kept Hf.
  - injection Hf as <-. split; [done|]. intros doc. split.
    + by intros ?%elem_of_nil.
    + by intros [?%elem_of_nil _].
  - simpl in Hf. inv_bind Hf. inv_bind Hf. injection Hf as <-.
    destruct (IH _ Ha0) as [Hsub Hin]. clear IH.
    destruct (Py.get (chunk_metadata d) "act_title" (SStr ""))
      as [| | |title] eqn:Ht; try discriminate. injection Ha as <-.
    assert (DataProcessor.any_in (PyStr.lower (chunk_content d))
              (PyStr.lower title) (PyStr.lower <$> kws) = true
            ↔ keyword_kept (SStr <$> kws) d) as Hkeep.
    { rewrite any_in_true. unfold keyword_kept. split.
      - intros (kw & Hkw & Hc). exists kw, title.
        split; [by apply list_elem_of_fmap_2|]. by rewrite Ht.
      - intros (kw & title' & Hkw & Ht' & Hc).
        rewrite Ht in Ht'. injection Ht' as <-.
        apply list_elem_of_fmap in Hkw as (kw' & [= <-] & Hkw').
        by exists kw. }
    destruct (DataProcessor.any_in _ _ _).
    + split; [by apply sublist_skip|]. intros doc.
      rewrite !elem_of_cons, Hin. split.
      * intros [->|[? ?]]; [split; [by left | by apply Hkeep] | auto].
      * intros [[->|?] ?]; auto.
    + split; [by apply sublist_cons|]. intros doc.
      rewrite elem_of_cons, Hin. split.
      * intros [? ?]; auto.
      * intros [[->|?] Hk]; [|auto]. apply Hkeep in Hk. discriminate.
Qed.

Lemma filter_by_keywords_spec (docs : list chunk) (keywords : list scalar)
    (kept : list chunk) :
  DataProcessor.filter_by_keywords docs keywords = Ok kept →
  kept `sublist_of` docs
  ∧ ∀ doc, doc ∈ kept ↔ doc ∈ docs ∧ keyword_kept keywords doc.
Proof.
  unfold DataProcessor.filter_by_keywords. intros Hf. inv_bind Hf.
  apply lower_all_strings in Ha as (kws & -> & ->).
  by apply keep_by_keywords_spec.
Qed.

(** X20.  The keyword filter of the document processor keeps, in their
    order, exactly the chunks in whose content or title one of the
    keywords occurs, case apart; without keywords it keeps nothing. *)
Theorem processor_keywords_are_alternatives (docs : list chunk)
    (keywords : list scalar) (kept : list chunk) :
  DataProcessor.filter_by_keywords docs keywords = Ok kept →
  kept `sublist_of` docs
  ∧ (∀ doc, doc ∈ kept ↔ doc ∈ docs ∧ keyword_kept keywords doc)
  ∧ (keywords = [] → kept = []).
Proof.
  intros Hf. destruct (filter_by_keywords_spec _ _ _ Hf) as [Hsub Hin].
  split; [exact Hsub|]. split; [exact Hin|].
  intros ->. destruct kept as [|doc kept]; [done|].
  destruct (Hin doc) as [Hk _].
  destruct Hk as [_ (kw & title & Hkw & _)]; [left|].
  by apply elem_of_nil in Hkw.
Qed.

(** X21.  The keyword filter of the engine is the stricter one: a chunk
    whose metadata the engine accepts under a list of keywords is kept by
    the processor under the same list, which also looks at the content. *)
Theorem engine_keywords_imply_processor_keywords (docs : list chunk)
    (keywords : list scalar) (kept : list chunk) (doc : chunk) :
  DataProcessor.filter_by_keywords docs keywords = Ok kept →
  doc ∈ docs →
  _apply_filters (chunk_metadata doc) [("keywords", FList keywords)]
  = Ok true →
  doc ∈ kept.
Proof.
  intros Hf Hin Hpass.
  destruct (filter_by_keywords_spec _ _ _ Hf) as [_ Hkept].
  apply Hkept. split; [done|].
  pose proof (_apply_filters_items _ _ Hpass "keywords" (FList keywords))
    as Hitem.
  destruct (apply_filter_keywords _ _ (Hitem ltac:(left)))
    as (title & kw & Ht & Hkw & Hc).
  exists kw, title. split; [done|]. split; [done|].
  unfold keyword_in_title in Hc. rewrite Hc. apply orb_true_r.
Qed.

Lemma contains_empty (hay : string) : PyStr.contains "" hay = true.
Proof. by destruct hay. Qed.

Lemma keep_everything (docs : list chunk) (keywords_lower : list string)
    (kept : list chunk) :
  "" ∈ keywords_lower →
  DataProcessor.keep_by_keywords docs keywords_lower = Ok kept →
  kept = docs.
Proof.
  intros Hin. revert kept. induction docs as [|d docs IH]; intros kept Hf.
  - by injection Hf as <-.
  - simpl in Hf. inv_bind Hf. inv_bind Hf. injection Hf as <-.
    rewrite (IH _ Ha0).
    assert (DataProcessor.any_in (PyStr.lower (chunk_content d)) a
              keywords_lower = true) as ->; [|done].
    unfold DataProcessor.any_in. apply existsb_exists. exists "".
    split; [by apply list_elem_of_In|]. by rewrite contains_empty.
Qed.

(** X22.  The empty keyword occurs in every text: a keyword list that
    holds the empty string keeps every chunk. *)
Theorem empty_keyword_keeps_everything (docs : list chunk)
    (keywords : list scalar) (kept : list chunk) :
  SStr "" ∈ keywords →
  DataProcessor.filter_by_keywords docs keywords = Ok kept →
  kept = docs.
Proof.
  unfold DataProcessor.filter_by_keywords. intros Hin Hf. inv_bind Hf.
  apply lower_all_strings in Ha as (kws & -> & ->).
  apply (keep_everything docs (PyStr.lower <$> kws)); [|done].
  apply list_elem_of_fmap in Hin as (kw & [= <-] & Hkw).
  change "" with (PyStr.lower ""). by apply list_elem_of_fmap_2.
Qed.

(** ** Cleaning text *)

Lemma collapse_blanks_length (in_run : bool) (cs : list ascii) :
  (length (DataProcessor.collapse_blanks in_run cs) ≤ length cs)%nat.
Proof.
  revert in_run. induction cs as [|c cs IH]; intros in_run; [done|].
  simpl. destruct (PyStr.is_space_char c), in_run; simpl;
    first [apply le_n_S, IH | apply Nat.le_le_succ_r, IH].
Qed.

Lemma collapse_blanks_plain (in_run : bool) (cs : list ascii) :
  Forall (λ c, PyStr.is_space_char c = true → c = DataProcessor.space)
    (DataProcessor.collapse_blanks in_run cs).
Proof.
  revert in_run. induction cs as [|c cs IH]; intros in_run; [constructor|].
  simpl. destruct (PyStr.is_space_char c) eqn:Hc.
  - destruct in_run; [apply IH|]. constructor; [done | apply IH].
  - constructor; [congruence | apply IH].
Qed.

Lemma blank_out_char_clean (c : ascii) :
  (PyStr.is_space_char c = true → c = DataProcessor.space) →
  is_clean_char
    (if DataProcessor.is_word_char c || PyStr.is_space_char c
        || DataProcessor.is_kept_punctuation c
     then c else DataProcessor.space) = true.
Proof.
  intros Hc.
  destruct (DataProcessor.is_word_char c) eqn:Hw;
    destruct (PyStr.is_space_char c) eqn:Hs;
    destruct (DataProcessor.is_kept_punctuation c) eqn:Hp;
    cbn [orb]; try rewrite (Hc eq_refl); try reflexivity;
    unfold is_clean_char; rewrite Hw, ?Hp; reflexivity.
Qed.

Lemma blank_out_clean (cs : list ascii) :
  Forall (λ c, PyStr.is_space_char c = true → c = DataProcessor.space) cs →
  forallb is_clean_char (DataProcessor.blank_out cs) = true.
Proof.
  induction 1 as [|c cs Hc _ IH]; [done|].
  unfold DataProcessor.blank_out in *. rewrite map_cons.
  cbn [forallb]. rewrite IH, andb_true_r.
  by apply blank_out_char_clean.
Qed.

(** X23.  A cleaned text is made of word characters, of the punctuation
    marks [.,;:!?()-] and of plain spaces only, so it holds no tab and no
    line break; it neither begins nor ends with a space; and it is never
    longer than the text it was made from. *)
Theorem clean_text_is_clean (text : scalar) :
  forallb is_clean_char (PyStr.chars (DataProcessor.clean_text text)) = true
  ∧ trimmed (PyStr.chars (DataProcessor.clean_text text))
  ∧ (String.length (DataProcessor.clean_text text)
     ≤ String.length (Py.str text))%nat.
Proof.
  assert (∀ s,
    let out := PyStr.strip_chars (DataProcessor.blank_out
                 (DataProcessor.collapse_blanks false (PyStr.chars s))) in
    forallb is_clean_char out = true ∧ trimmed out
    ∧ (length out ≤ String.length s)%nat) as Hclean.
  { intros s out. split; [|split].
    - pose proof (blank_out_clean _
                    (collapse_blanks_plain false (PyStr.chars s))) as Hall.
      destruct (strip_chars_infix (DataProcessor.blank_out
                  (DataProcessor.collapse_blanks false (PyStr.chars s))))
        as (k1 & k2 & Heq).
      fold out in Heq. rewrite Heq, !forallb_app in Hall.
      apply andb_prop in Hall as [_ Hall].
      by apply andb_prop in Hall as [Hall _].
    - apply strip_chars_trimmed.
    - destruct (strip_chars_infix (DataProcessor.blank_out
                  (DataProcessor.collapse_blanks false (PyStr.chars s))))
        as (k1 & k2 & Heq).
      fold out in Heq. apply (f_equal length) in Heq.
      rewrite !length_app in Heq.
      unfold DataProcessor.blank_out in Heq. rewrite length_map in Heq.
      pose proof (collapse_blanks_length false (PyStr.chars s)) as Hlen.
      rewrite chars_length in Hlen. lia. }
  assert (forallb is_clean_char [] = true ∧ trimmed []
          ∧ (0 ≤ String.length (Py.str text))%nat) as Hempty.
  { split; [done|]. split; [|lia]. split; intros c cs' Heq; [done|].
    by destruct cs'. }
  unfold DataProcessor.clean_text.
  destruct text as [| b | z | s]; [exact Hempty| | |].
  - simpl Py.eq_str. cbv iota. rewrite chars_of, <- chars_length, chars_of.
    apply Hclean.
  - simpl Py.eq_str. cbv iota. rewrite chars_of, <- chars_length, chars_of.
    apply Hclean.
  - destruct (Py.eq_str (SStr s) ""); [exact Hempty|].
    rewrite chars_of, <- chars_length, chars_of. apply Hclean.
Qed.

(** Blanks are collapsed before the other characters are blanked out, so
    the spaces that replace them stay. *)
Example clean_text_examples :
  DataProcessor.clean_text
    (SStr "  The  Contract Act, 1872 (Act No. IX) @ #home ")
  = "The Contract Act, 1872 (Act No. IX)    home"
  ∧ DataProcessor.clean_text (SStr "a @ b") = "a   b"
  ∧ DataProcessor.clean_text (SStr "a   b") = "a b"
  ∧ DataProcessor.clean_text (SInt 12) = "12"
  ∧ DataProcessor.clean_text SNone = "".
Proof. repeat split; by_evaluation. Qed.

(** ** From the sidebar to the engine *)

Lemma rag_filters_of_sidebar (w : Sidebar.widgets) :
  App.rag_filters (Sidebar.render_sidebar_filters w)
  = (if Sidebar.start_year w <=? Sidebar.end_year w
     then [("year_range",
            FTuple [SInt (Sidebar.start_year w); SInt (Sidebar.end_year w)])]
     else [])
    ++ (if String.eqb (Sidebar.status_filter w) "Active Only"
        then [("is_repealed", FScalar (SBool false))]
        else if String.eqb (Sidebar.status_filter w) "Repealed Only"
        then [("is_repealed", FScalar (SBool true))]
        else [])
    ++ (if negb (String.eqb (Sidebar.language_filter w) "Any")
        then [("language",
               FScalar (SStr (PyStr.lower (Sidebar.language_filter w))))]
        else [])
    ++ (if negb (String.eqb (Sidebar.keywords_input w) "")
        then [("keywords",
               FList (SStr <$> Sidebar.keywords_of (Sidebar.keywords_input w)))]
        else []).
Proof.
  unfold Sidebar.render_sidebar_filters, App.rag_filters, App.copy.
  destruct (_ <=? _);
    destruct (String.eqb (Sidebar.status_filter w) "Active Only");
    destruct (String.eqb (Sidebar.status_filter w) "Repealed Only");
    destruct (String.eqb (Sidebar.language_filter w) "Any");
    destruct (String.eqb (Sidebar.keywords_input w) "");
    reflexivity.
Qed.

Lemma forallb_is_str (kws : list string) : forallb is_str (SStr <$> kws) = true.
Proof. induction kws as [|kw kws IH]; [done|]. exact IH. Qed.

(** X24.  Every item that the application hands to the engine is one that
    a branch of the filter reads, with a value of the type the branch
    tests for: the mode and the number of results are left out, the year
    range is a tuple of two integers and the keywords are a list of
    strings. *)
Theorem sidebar_filters_are_read (w : Sidebar.widgets) :
  forallb recognised (App.rag_filters (Sidebar.render_sidebar_filters w))
  = true
  ∧ well_typed_filters
      (Some (App.rag_filters (Sidebar.render_sidebar_filters w))) = true.
Proof.
  rewrite rag_filters_of_sidebar. unfold well_typed_filters.
  destruct (_ <=? _);
    destruct (String.eqb (Sidebar.status_filter w) "Active Only");
    destruct (String.eqb (Sidebar.status_filter w) "Repealed Only");
    destruct (String.eqb (Sidebar.language_filter w) "Any");
    destruct (String.eqb (Sidebar.keywords_input w) "");
    split; try reflexivity; simpl; unfold well_typed_item; simpl;
    rewrite ?forallb_is_str; reflexivity.
Qed.

Section SidebarSearch.

Context `{Backend}.

(** X25.  With From not after To in the sidebar, every result of a search
    that the application starts whose year is a string of digits has a
    year between From and To. *)
Theorem sidebar_year_range_is_enforced (self : LegalRAGSystem)
    (w : Sidebar.widgets) (query : string) (top_k : Z)
    (rs : list SearchResult) :
  Sidebar.start_year w ≤ Sidebar.end_year w →
  search self query top_k
    (Some (App.rag_filters (Sidebar.render_sidebar_filters w))) = Ok rs →
  ∀ r s, r ∈ rs →
    result_metadata r !! "act_year" = Some (SStr s) →
    PyStr.isdigit s = true →
    ∃ year, PyStr.int s = Ok year
            ∧ Sidebar.start_year w ≤ year ≤ Sidebar.end_year w.
Proof.
  intros Hle Hs r s Hr Hy Hd.
  assert (("year_range",
           FTuple [SInt (Sidebar.start_year w); SInt (Sidebar.end_year w)])
          ∈ App.rag_filters (Sidebar.render_sidebar_filters w)) as Hitem.
  { rewrite rag_filters_of_sidebar.
    apply Z.leb_le in Hle. rewrite Hle. apply elem_of_app. left. left. }
  pose proof (search_result_passes_item _ _ _ _ _ _ _ _ Hs Hr Hitem) as Hp.
  destruct (apply_filter_year_range _ _ _ Hp Hy Hd) as (year & Hint & Hin).
  exists year. split; [done|].
  rewrite in_range_ints in Hin. injection Hin as Hin.
  apply andb_prop in Hin as [H1 H2].
  apply Z.leb_le in H1. apply Z.leb_le in H2. lia.
Qed.

End SidebarSearch.

(** X26.  With From after To the sidebar sets no year range, and the
    filter that reaches the engine does not look at the year of a record
    at all. *)
Theorem inverted_year_range_is_dropped (w : Sidebar.widgets) (m : metadata)
    (year : scalar) :
  Sidebar.end_year w < Sidebar.start_year w →
  _apply_filters (<["act_year" := year]> m)
    (App.rag_filters (Sidebar.render_sidebar_filters w))
  = _apply_filters m (App.rag_filters (Sidebar.render_sidebar_filters w)).
Proof.
  intros Hlt. rewrite rag_filters_of_sidebar.
  apply Z.leb_gt in Hlt. rewrite Hlt.
  destruct (String.eqb (Sidebar.status_filter w) "Active Only");
    destruct (String.eqb (Sidebar.status_filter w) "Repealed Only");
    destruct (String.eqb (Sidebar.language_filter w) "Any");
    destruct (String.eqb (Sidebar.keywords_input w) "");
    simpl; unfold apply_filter; simpl; unfold Py.get;
    rewrite ?lookup_insert_ne by done; reflexivity.
Qed.

(** ** The keywords of the sidebar *)

Lemma split_chars_parts (sep : ascii) (P : ascii → Prop) (cs : list ascii) :
  Forall P cs →
  Forall (λ part, Forall (λ c, P c ∧ c ≠ sep) part)
    (PyStr.split_chars sep cs).
Proof.
  induction 1 as [|c cs Hc _ IH]; [by repeat constructor|].
  simpl. destruct (Ascii.eqb_spec c sep) as [->|Hne].
  - by constructor.
  - destruct (PyStr.split_chars sep cs) as [|part parts]; [by repeat constructor|].
    inversion IH as [|? ? Hpart Hparts]; subst.
    constructor; [|done]. by constructor.
Qed.

Lemma trimmed_strip_chars (cs : list ascii) :
  trimmed cs → PyStr.strip_chars cs = cs.
Proof.
  intros [Hfirst Hlast]. unfold PyStr.strip_chars.
  assert (PyStr.lstrip_chars cs = cs) as ->.
  { destruct cs as [|c cs']; [done|]. apply lstrip_head. by eapply Hfirst. }
  assert (PyStr.lstrip_chars (reverse cs) = reverse cs) as ->.
  { destruct (reverse cs) as [|c cs'] eqn:Hrev; [done|].
    apply lstrip_head. apply (Hlast c (reverse cs')).
    by rewrite <- reverse_cons, <- Hrev, reverse_involutive. }
  apply reverse_involutive.
Qed.

Lemma strip_chars_spaces (ws : list ascii) :
  Forall (λ c, PyStr.is_space_char c = true) ws → PyStr.strip_chars ws = [].
Proof.
  intros Hws. unfold PyStr.strip_chars.
  rewrite <- (app_nil_r ws), lstrip_spaces; [done|].
  apply forallb_forall. intros c Hc.
  rewrite Forall_forall in Hws. by apply Hws, list_elem_of_In.
Qed.

Lemma keywords_of_elem (keywords_input kw : string) :
  kw ∈ Sidebar.keywords_of keywords_input →
  kw ≠ ""
  ∧ ∃ part, part ∈ PyStr.split_chars PyStr.comma (PyStr.chars keywords_input)
            ∧ kw = String.string_of_list_ascii (PyStr.strip_chars part).
Proof.
  unfold Sidebar.keywords_of, PyStr.split. intros Hkw.
  apply list_elem_of_fmap in Hkw as (p & -> & Hp).
  apply list_elem_of_In, filter_In in Hp as [Hp Hne].
  apply list_elem_of_In, list_elem_of_fmap in Hp as (part & -> & Hpart).
  split.
  - intros Heq. rewrite Heq in Hne. discriminate.
  - exists part. split; [done|]. unfold PyStr.strip. by rewrite chars_of.
Qed.

(** X27.  The keywords that the sidebar makes of its text field are not
    empty, have no blank at either end and hold no comma. *)
Theorem sidebar_keywords_are_trimmed (keywords_input kw : string) :
  kw ∈ Sidebar.keywords_of keywords_input →
  kw ≠ "" ∧ PyStr.strip kw = kw ∧ PyStr.comma ∉ PyStr.chars kw.
Proof.
  intros Hkw. apply keywords_of_elem in Hkw as (Hne & part & Hpart & ->).
  split; [exact Hne|]. split.
  - unfold PyStr.strip. rewrite chars_of.
    by rewrite (trimmed_strip_chars _ (strip_chars_trimmed part)).
  - rewrite chars_of. intros Hin.
    pose proof (split_chars_parts PyStr.comma (λ _, True)
                  (PyStr.chars keywords_input)
                  ltac:(by apply Forall_true)) as Hparts.
    rewrite Forall_forall in Hparts. specialize (Hparts part Hpart).
    destruct (strip_chars_infix part) as (k1 & k2 & Heq).
    rewrite Heq, !Forall_app in Hparts.
    destruct Hparts as (_ & Hmid & _). rewrite Forall_forall in Hmid.
    by destruct (Hmid _ Hin) as [_ Hc].
Qed.

Lemma keywords_of_blank (keywords_input : string) :
  forallb (λ c, PyStr.is_space_char c || Ascii.eqb c PyStr.comma)
    (PyStr.chars keywords_input) = true →
  Sidebar.keywords_of keywords_input = [].
Proof.
  intros Hall.
  destruct (Sidebar.keywords_of keywords_input) as [|kw kws] eqn:Hk; [done|].
  assert (kw ∈ Sidebar.keywords_of keywords_input) as Hkw
    by (rewrite Hk; left).
  apply keywords_of_elem in Hkw as (Hne & part & Hpart & ->).
  destruct Hne.
  assert (Forall (λ c, PyStr.is_space_char c || Ascii.eqb c PyStr.comma = true)
            (PyStr.chars keywords_input)) as Hcs.
  { apply Forall_forall. intros c Hc. rewrite forallb_forall in Hall.
    by apply Hall, list_elem_of_In. }
  pose proof (split_chars_parts PyStr.comma _ _ Hcs) as Hparts.
  rewrite Forall_forall in Hparts. specialize (Hparts part Hpart).
  rewrite strip_chars_spaces; [done|].
  eapply Forall_impl; [exact Hparts|]. intros c [Hc Hsep]. simpl in Hc.
  apply orb_prop in Hc as [Hc|Hc]; [done|].
  by apply Ascii.eqb_eq in Hc.
Qed.

Section SidebarKeywords.

Context `{Backend}.

(** X28.  A keyword field that holds only commas and blanks, but is not
    empty, gives the engine an empty list of keywords: every search of the
    application that returns then returns no result. *)
Theorem blank_keywords_block_search (self : LegalRAGSystem)
    (w : Sidebar.widgets) (query : string) (top_k : Z)
    (rs : list SearchResult) :
  Sidebar.keywords_input w ≠ "" →
  forallb (λ c, PyStr.is_space_char c || Ascii.eqb c PyStr.comma)
    (PyStr.chars (Sidebar.keywords_input w)) = true →
  search self query top_k
    (Some (App.rag_filters (Sidebar.render_sidebar_filters w))) = Ok rs →
  rs = [].
Proof.
  intros Hne Hblank Hs.
  assert (("keywords", FList [])
          ∈ App.rag_filters (Sidebar.render_sidebar_filters w)) as Hitem.
  { rewrite rag_filters_of_sidebar.
    destruct (String.eqb_spec (Sidebar.keywords_input w) "") as [|_]; [done|].
    rewrite (keywords_of_blank _ Hblank).
    rewrite !elem_of_app. right. right. right. left. }
  destruct rs as [|r rs]; [done|].
  assert (r ∈ r :: rs) as Hr by left.
  pose proof (search_result_passes_item _ _ _ _ _ _ _ _ Hs Hr Hitem) as Hp.
  apply apply_filter_keywords in Hp as (title & kw & _ & Hkw & _).
  by apply elem_of_nil in Hkw.
Qed.

End SidebarKeywords.

(** ** The processor and the sidebar on the scenario *)

Lemma processor_year_filter_keeps_years_in_range_witness :
  DataProcessor.filter_by_year_range Toy.processed 1850 1880
  = Ok [Toy.contract_chunk; Toy.penal_chunk; Toy.theft_chunk]
  ∧ ∀ doc, doc ∈ [Toy.contract_chunk; Toy.penal_chunk; Toy.theft_chunk] →
      year_within 1850 1880 (chunk_metadata doc).
Proof.
  split; [by_evaluation|].
  apply (processor_year_filter_keeps_years_in_range Toy.processed 1850 1880).
  by_evaluation.
Defined.

Lemma year_filters_agree_on_digit_years_witness :
  _apply_filters (chunk_metadata Toy.undated_chunk)
    [("year_range", FTuple [SInt 1850; SInt 1880])] = Ok true
  ∧ Toy.undated_chunk
    ∉ [Toy.contract_chunk; Toy.penal_chunk; Toy.theft_chunk].
Proof.
  destruct (year_filters_agree_on_digit_years Toy.processed 1850 1880
              [Toy.contract_chunk; Toy.penal_chunk; Toy.theft_chunk]
              Toy.undated_chunk "N/A") as [_ Hopen].
  - by_evaluation.
  - do 4 right. left.
  - by_evaluation.
  - apply Hopen. reflexivity.
Defined.

Lemma processor_year_filter_returns_witness :
  is_Ok (DataProcessor.filter_by_year_range Toy.processed 1850 1880).
Proof.
  apply (processor_year_filter_returns Toy.processed 1850 1880).
  by_evaluation.
Defined.

Lemma processor_keywords_are_alternatives_witness :
  DataProcessor.filter_by_keywords Toy.processed
    [SStr "THEFT"; SStr "contract"]
  = Ok [Toy.contract_chunk; Toy.theft_chunk]
  ∧ [Toy.contract_chunk; Toy.theft_chunk] `sublist_of` Toy.processed.
Proof.
  split; [by_evaluation|].
  apply (processor_keywords_are_alternatives Toy.processed
           [SStr "THEFT"; SStr "contract"]).
  by_evaluation.
Defined.

(** The engine finds the keyword in the title of the section; the
    processor keeps the section, and under [theft], which only the content
    holds, the processor alone does. *)
Lemma engine_keywords_imply_processor_keywords_witness :
  Toy.theft_chunk ∈ [Toy.penal_chunk; Toy.theft_chunk]
  ∧ _apply_filters (chunk_metadata Toy.theft_chunk)
      [("keywords", FList [SStr "theft"])] = Ok false
  ∧ DataProcessor.filter_by_keywords Toy.processed [SStr "theft"]
    = Ok [Toy.theft_chunk].
Proof.
  split; [|split; by_evaluation].
  apply (engine_keywords_imply_processor_keywords Toy.processed
           [SStr "code"]).
  - by_evaluation.
  - do 3 right. left.
  - by_evaluation.
Defined.

Lemma empty_keyword_keeps_everything_witness :
  ∃ kept,
    DataProcessor.filter_by_keywords Toy.processed [SStr "tax"; SStr ""]
    = Ok kept
    ∧ kept = Toy.processed.
Proof.
  exists Toy.processed. split; [by_evaluation|].
  apply (empty_keyword_keeps_everything Toy.processed
           [SStr "tax"; SStr ""]); [right; left | by_evaluation].
Defined.

Lemma sidebar_year_range_is_enforced_witness :
  @search (Toy.backend Toy.up) (Toy.built Toy.up) "contract" 5
    (Some (App.rag_filters
             (Sidebar.render_sidebar_filters (Toy.sidebar 1850 1880 ""))))
  = Ok [Toy.contract_hit; Toy.penal_hit]
  ∧ ∀ r s, r ∈ [Toy.contract_hit; Toy.penal_hit] →
      result_metadata r !! "act_year" = Some (SStr s) →
      PyStr.isdigit s = true →
      ∃ year, PyStr.int s = Ok year ∧ 1850 ≤ year ≤ 1880.
Proof.
  split; [by_evaluation|].
  apply (@sidebar_year_range_is_enforced (Toy.backend Toy.up)
           (Toy.built Toy.up) (Toy.sidebar 1850 1880 "") "contract" 5).
  - simpl. lia.
  - by_evaluation.
Defined.

Lemma inverted_year_range_is_dropped_witness :
  App.rag_filters
    (Sidebar.render_sidebar_filters (Toy.sidebar 2000 1990 "act")) 
  = [("keywords", FList [SStr "act"])]
  ∧ _apply_filters (<["act_year" := SStr "1700"]> (Toy.act "Old Act" "1900" true))
      (App.rag_filters
         (Sidebar.render_sidebar_filters (Toy.sidebar 2000 1990 "act")))
    = _apply_filters (Toy.act "Old Act" "1900" true)
        (App.rag_filters
           (Sidebar.render_sidebar_filters (Toy.sidebar 2000 1990 "act"))).
Proof.
  split; [by_evaluation|].
  apply (inverted_year_range_is_dropped (Toy.sidebar 2000 1990 "act")).
  simpl. lia.
Defined.

Lemma sidebar_keywords_are_trimmed_witness :
  Sidebar.keywords_of " contract ,, Penal Code ,  " = ["contract"; "Penal Code"]
  ∧ "Penal Code" ≠ "" ∧ PyStr.strip "Penal Code" = "Penal Code"
  ∧ PyStr.comma ∉ PyStr.chars "Penal Code".
Proof.
  split; [by_evaluation|].
  apply (sidebar_keywords_are_trimmed " contract ,, Penal Code ,  ").
  assert (Sidebar.keywords_of " contract ,, Penal Code ,  "
          = ["contract"; "Penal Code"]) as -> by by_evaluation.
  right. left.
Defined.

Lemma blank_keywords_block_search_witness :
  ∃ rs,
    @search (Toy.backend Toy.up) (Toy.built Toy.up) "contract" 5
      (Some (App.rag_filters
               (Sidebar.render_sidebar_filters (Toy.sidebar 1850 1880 " , ,"))))
    = Ok rs
    ∧ rs = [].
Proof.
  exists []. split; [by_evaluation|].
  apply (@blank_keywords_block_search (Toy.backend Toy.up)
           (Toy.built Toy.up) (Toy.sidebar 1850 1880 " , ,") "contract" 5);
    [discriminate | by_evaluation..].
Defined.
